(** * thulibfront: the library seat-availability walker of [main.py]

    A shallow embedding of [main.py] and the properties its
    specification states about it.

    - JSON payloads are values of [json]; the entities built from them
      (the five dataclasses) keep whatever value the payload carried,
      as Python's dataclasses do.
    - Python exceptions are the [Raise] outcome of [result].
    - The HTTP session is an oracle from requests to responses; every
      request issued is appended to a trace, so that what a call sends
      can be stated.
    - The clock is a number of seconds since the epoch, the time zone a
      function giving the UTC offset in force at an instant.
    - The browser of the two login routines is a small state threaded
      through the steps of the routine. *)

From stdpp Require Import gmap strings list pretty sorting.
From Stdlib Require Import ZArith Ascii.

#[local] Set Warnings "-register-all".
#[local] Open Scope Z_scope.

(** ** Python values decoded from JSON *)

(** What [response.json()] can yield. Numbers with a fraction or an
    exponent decode to Python floats; binary floating point is outside
    this embedding, so the numbers of the model are the integers. A
    [str] is a [string], one character per element. *)
Inductive json : Type :=
| JNull
| JBool (b : bool)
| JInt (n : Z)
| JStr (s : string)
| JList (l : list json)
| JDict (d : gmap string json).

(** The exceptions the program can meet. Assertions are taken as
    enabled (the interpreter's default). [KeyboardInterrupt] is the one
    exception here that is not an [Exception]. *)
Inductive exn : Type :=
| AssertionError
| KeyError
| TypeError
| IndexError
| JSONDecodeError
| ConnectionError
| WebDriverException
| EOFError
| KeyboardInterrupt.

Inductive result (A : Type) : Type :=
| Ok (a : A)
| Raise (e : exn).
Arguments Ok {A} a.
Arguments Raise {A} e.

#[global] Instance result_ret : MRet result := fun _ a => Ok a.
#[global] Instance result_bind : MBind result := fun _ _ f m =>
  match m with
  | Ok a => f a
  | Raise e => Raise e
  end.

(** [assert c] *)
Definition py_assert (c : bool) : result unit :=
  if c then Ok tt else Raise AssertionError.

(** [bool] is a subclass of [int]: [True] counts as 1, [False] as 0. *)
Definition as_int (v : json) : option Z :=
  match v with
  | JBool b => Some (if b then 1 else 0)
  | JInt n => Some n
  | _ => None
  end.

(** [a == b] on decoded JSON. It never raises. *)
Fixpoint py_eq (a b : json) {struct a} : bool :=
  match a, b with
  | JNull, JNull => true
  | JBool _, (JBool _ | JInt _) | JInt _, (JBool _ | JInt _) =>
      bool_decide (as_int a = as_int b)
  | JStr s, JStr t => String.eqb s t
  | JList l, JList m =>
      (fix go (l m : list json) {struct l} : bool :=
         match l, m with
         | [], [] => true
         | x :: l', y :: m' => py_eq x y && go l' m'
         | _, _ => false
         end) l m
  | JDict d, JDict e =>
      bool_decide (size d = size e) &&
      map_fold (fun k v acc =>
                  acc && match e !! k with
                         | Some w => py_eq v w
                         | None => false
                         end) true d
  | _, _ => false
  end.

(** [a < b]. Integers (and booleans) are ordered as numbers, strings
    and lists lexicographically; a list comparison looks for the first
    position where the elements differ under [==] and orders the lists
    by those two elements. Everything else is a [TypeError]. *)
Fixpoint py_lt (a b : json) {struct a} : result bool :=
  match a, b with
  | JBool _, (JBool _ | JInt _) | JInt _, (JBool _ | JInt _) =>
      match as_int a, as_int b with
      | Some x, Some y => Ok (x <? y)
      | _, _ => Raise TypeError
      end
  | JStr s, JStr t => Ok (String.ltb s t)
  | JList l, JList m =>
      (fix go (l m : list json) {struct l} : result bool :=
         match l, m with
         | _, [] => Ok false
         | [], _ :: _ => Ok true
         | x :: l', y :: m' => if py_eq x y then go l' m' else py_lt x y
         end) l m
  | _, _ => Raise TypeError
  end.

(** [a - b] on the values of the model: the difference of two
    integers (booleans included), a [TypeError] for [None], strings,
    lists and dicts. Python also subtracts floats, which [json] does
    not hold; a theorem that relies on the difference states that both
    operands are integers. *)
Definition py_sub (a b : json) : result json :=
  match as_int a, as_int b with
  | Some x, Some y => Ok (JInt (x - y))
  | _, _ => Raise TypeError
  end.

(** [v[k]] with a string key [k]. Only a dict can be indexed by a
    string. *)
Definition py_getitem (v : json) (k : string) : result json :=
  match v with
  | JDict d =>
      match d !! k with
      | Some x => Ok x
      | None => Raise KeyError
      end
  | _ => Raise TypeError
  end.

(** [v[i:j]]: strings and lists are sliced, with the bounds clamped to
    the length. A dict takes the slice for a key it does not have
    ([KeyError]; before Python 3.12 a slice was unhashable and the
    error was a [TypeError]). *)
Definition py_slice (v : json) (i j : nat) : result json :=
  match v with
  | JStr s => Ok (JStr (String.substring i (j - i) s))
  | JList l => Ok (JList (take (j - i) (drop i l)))
  | JDict _ => Raise KeyError
  | _ => Raise TypeError
  end.

(** [for data in v]: the elements of a list, the keys of a dict, the
    characters of a string. The order in which a dict hands out its
    keys plays no role below: every key is a string, and the first
    one met is indexed by a string, which raises. *)
Definition py_iter (v : json) : result (list json) :=
  match v with
  | JList l => Ok l
  | JDict d => Ok (JStr <$> (map_to_list d).*1)
  | JStr s => Ok ((fun c => JStr (String c EmptyString)) <$> String.list_ascii_of_string s)
  | _ => Raise TypeError
  end.

(** A list comprehension [[build data for data in l if keep data]]:
    the condition is evaluated first, the element is built when it
    holds, and the first exception ends the whole comprehension. *)
Fixpoint comprehension {A B : Type} (keep : A → result bool)
    (build : A → result B) (l : list A) : result (list B) :=
  match l with
  | [] => Ok []
  | data :: l' =>
      b ← keep data;
      if b : bool then
        x ← build data;
        xs ← comprehension keep build l';
        Ok (x :: xs)
      else comprehension keep build l'
  end.

(** ** The clock: [time.time], [time.localtime], [time.strftime] *)

(** The fields of [struct_time] that the two formats in use read. *)
Record struct_time : Type := mk_struct_time {
  tm_year : Z;
  tm_mon : Z;
  tm_mday : Z;
  tm_hour : Z;
  tm_min : Z;
  tm_sec : Z;
}.

(** The civil date (proleptic Gregorian calendar) of a day number, day
    0 being 1970-01-01: the computation works in years that start on
    March 1st, inside 400-year eras of 146097 days. *)
Definition civil_from_days (days : Z) : Z * Z * Z :=
  let z := days + 719468 in
  let era := z `div` 146097 in
  let doe := z `mod` 146097 in
  let yoe := (doe - doe `div` 1460 + doe `div` 36524 - doe `div` 146096) `div` 365 in
  let doy := doe - (365 * yoe + yoe `div` 4 - yoe `div` 100) in
  let mp := (5 * doy + 2) `div` 153 in
  let d := doy - (153 * mp + 2) `div` 5 + 1 in
  let m := if mp <? 10 then mp + 3 else mp - 9 in
  let y := yoe + era * 400 in
  (if m <=? 2 then y + 1 else y, m, d).

(** [time.localtime(t)]: the broken-down local time of the instant [t]
    (seconds since the epoch; the fraction of a second of a float
    reading is dropped), under a time zone given by the UTC offset, in
    seconds, that is in force at each instant. *)
Definition localtime (utc_offset : Z → Z) (t : Z) : struct_time :=
  let local := t + utc_offset t in
  let '(y, m, d) := civil_from_days (local `div` 86400) in
  let sod := local `mod` 86400 in
  {| tm_year := y; tm_mon := m; tm_mday := d;
     tm_hour := sod `div` 3600;
     tm_min := (sod `mod` 3600) `div` 60;
     tm_sec := sod `mod` 60 |}.

(** A number printed on at least two digits. *)
Definition pad2 (n : Z) : string :=
  if decide (0 ≤ n < 10) then "0" +:+ pretty n else pretty n.

(** [time.strftime(format, tm)] for the directives [%Y %m %d %H %M %S];
    any other character is copied. *)
Fixpoint strftime (format : string) (tm : struct_time) : string :=
  match format with
  | String "%"%char (String c rest) =>
      (if Ascii.eqb c "Y"%char then pretty (tm_year tm)
       else if Ascii.eqb c "m"%char then pad2 (tm_mon tm)
       else if Ascii.eqb c "d"%char then pad2 (tm_mday tm)
       else if Ascii.eqb c "H"%char then pad2 (tm_hour tm)
       else if Ascii.eqb c "M"%char then pad2 (tm_min tm)
       else if Ascii.eqb c "S"%char then pad2 (tm_sec tm)
       else String "%"%char (String c EmptyString)) +:+ strftime rest tm
  | String c rest => String c (strftime rest tm)
  | EmptyString => EmptyString
  end.

(** The calendar, stated without day numbers: leap years, month
    lengths, and the day after a date. *)
Definition is_leap (y : Z) : bool :=
  (y `mod` 4 =? 0) && (negb (y `mod` 100 =? 0) || (y `mod` 400 =? 0)).

Definition days_in_month (y m : Z) : Z :=
  if m =? 2 then (if is_leap y then 29 else 28)
  else if (m =? 4) || (m =? 6) || (m =? 9) || (m =? 11) then 30
  else 31.

Definition next_day (date : Z * Z * Z) : Z * Z * Z :=
  let '(y, m, d) := date in
  if d <? days_in_month y m then (y, m, d + 1)
  else if m <? 12 then (y, m + 1, 1)
  else (y + 1, 1, 1).

Definition date_of (tm : struct_time) : Z * Z * Z :=
  (tm_year tm, tm_mon tm, tm_mday tm).

Definition with_date (date : Z * Z * Z) (tm : struct_time) : struct_time :=
  let '(y, m, d) := date in
  {| tm_year := y; tm_mon := m; tm_mday := d;
     tm_hour := tm_hour tm; tm_min := tm_min tm; tm_sec := tm_sec tm |}.

(** ** [sorted(l, key=...)] *)

(** Python's sort is stable and only ever asks whether a later element
    is smaller than an earlier one. The model inserts the elements one
    by one, from left to right, each before the first element that it
    is smaller than; an exception raised by a comparison ends the
    sort. *)
Fixpoint insert_by {A : Type} (key : A → json) (x : A) (l : list A)
    : result (list A) :=
  match l with
  | [] => Ok [x]
  | y :: l' =>
      b ← py_lt (key x) (key y);
      if b : bool then Ok (x :: y :: l')
      else l'' ← insert_by key x l'; Ok (y :: l'')
  end.

Fixpoint sorted_into {A : Type} (key : A → json) (acc l : list A)
    : result (list A) :=
  match l with
  | [] => Ok acc
  | x :: l' => acc' ← insert_by key x acc; sorted_into key acc' l'
  end.

Definition sorted {A : Type} (key : A → json) (l : list A)
    : result (list A) :=
  sorted_into key [] l.

(** ** The entities *)

Module Library.
Record t : Type := mk {
  id : json;
  name : json;
  nameMerge : json;
  enname : json;
  ennameMerge : json;
}.
End Library.

Module LibraryFloor.
Record t : Type := mk {
  id : json;
  name : json;
  enname : json;
  parent : json;
}.
End LibraryFloor.

Module LibrarySection.
Record t : Type := mk {
  id : json;
  name : json;
  enname : json;
  total : json;
  available : json;
  parent : json;
}.
End LibrarySection.

Inductive Day : Type := Today | Tomorrow.

#[global] Instance Day_eq_dec : EqDecision Day.
Proof. solve_decision. Defined.

Module LibraryDay.
Record t : Type := mk {
  id : json;
  date : json;
  startTime : json;
  endTime : json;
  day : Day;
}.
End LibraryDay.

Module LibrarySeat.
Record t : Type := mk {
  id : json;
  name : json;
  type : json;
  status : json;
  parent : json;
}.
End LibrarySeat.

(** The labels of the seat status codes. *)
Definition status_dict : gmap Z string :=
  {[ 1 := "空闲"; 4 := "维护"; 6 := "使用中"; 7 := "临时离开" ]}.

(** ** The HTTP session *)

(** A cookie jar maps (domain, path, name) to a value. *)
Abbreviation cookiejar := (gmap (string * string * string) string).

Record Session : Type := mk_Session {
  cookies : cookiejar;
}.

(** What [session.get(url, headers=..., allow_redirects=..., params=...)]
    hands to the network. *)
Record request : Type := mk_request {
  req_session : Session;
  req_url : string;
  req_headers : gmap string string;
  req_allow_redirects : bool;
  req_params : option (gmap string json);
}.

(** A response: its status code and what [response.json()] yields
    ([None] when the body does not decode). *)
Record response : Type := mk_response {
  status_code : Z;
  body : option json;
}.

Definition response_json_of (r : response) : result json :=
  match body r with
  | Some v => Ok v
  | None => Raise JSONDecodeError
  end.

(** A computation that talks to the network: it extends the trace of
    the requests issued so far, and returns or raises. *)
Definition io (A : Type) : Type := list request → result A * list request.

#[global] Instance io_ret : MRet io := fun _ a tr => (Ok a, tr).
#[global] Instance io_bind : MBind io := fun _ _ f m tr =>
  match m tr with
  | (Ok a, tr') => f a tr'
  | (Raise e, tr') => (Raise e, tr')
  end.

Definition lift {A : Type} (r : result A) : io A := fun tr => (r, tr).

Record LibQuery : Type := mk_LibQuery {
  session : Session;
  headers : gmap string string;
}.

Definition LIBRARY_PREFIX : string :=
  "https://webvpn.tsinghua.edu.cn/https/77726476706e69737468656265737421e3f24088693c6152301c9aa596522b204c02212b859d0a19".
Definition LIBRARY_LIST_URL : string := LIBRARY_PREFIX +:+ "/api.php/areas/1/tree/1".
Definition LIBRARY_AREAS_URL : string := LIBRARY_PREFIX +:+ "/api.php/areas/".
Definition LIBRARY_SEATS_URL : string := LIBRARY_PREFIX +:+ "/api.php/spaces_old/".
Definition LIBRARY_DAYS_URL : string := LIBRARY_PREFIX +:+ "/api.php/areadays/".

(** ** [class LibQuery] *)

Section LibQuery.

(** The remote end, which answers a request with a response or makes
    [session.get] raise; the builtin [str] (used only to splice
    identifiers into URLs); and the time zone of the machine. *)
Context (server : request → result response).
Context (py_str : json → string).
Context (utc_offset : Z → Z).

Definition session_get (s : Session) (url : string)
    (hdrs : gmap string string) (allow_redirects : bool)
    (params : option (gmap string json)) : io response :=
  fun tr =>
    let req := mk_request s url hdrs allow_redirects params in
    (server req, tr ++ [req]).

Definition get_json (self : LibQuery) (url : string)
    (params : option (gmap string json)) : io json :=
  response ← session_get (session self) url (headers self) true params;
  _ ← lift (py_assert (status_code response =? 200));
  response_json ← lift (response_json_of response);
  status ← lift (py_getitem response_json "status");
  _ ← lift (py_assert (py_eq status (JInt 1)));
  mret response_json.

(** The condition [data["isValid"] == 1] of the comprehensions. *)
Definition is_valid (data : json) : result bool :=
  flag ← py_getitem data "isValid";
  Ok (py_eq flag (JInt 1)).

Definition no_filter (data : json) : result bool := Ok true.

Definition library_of (data : json) : result Library.t :=
  id ← py_getitem data "id";
  name ← py_getitem data "name";
  nameMerge ← py_getitem data "nameMerge";
  enname ← py_getitem data "enname";
  ennameMerge ← py_getitem data "ennameMerge";
  Ok (Library.mk id name nameMerge enname ennameMerge).

Definition get_library_list (self : LibQuery) : io (list Library.t) :=
  response_json ← get_json self LIBRARY_LIST_URL None;
  lift (
    data ← py_getitem response_json "data";
    data_list ← py_getitem data "list";
    items ← py_iter data_list;
    comprehension is_valid library_of items).

Definition floor_of (library : Library.t) (data : json)
    : result LibraryFloor.t :=
  id ← py_getitem data "id";
  name ← py_getitem data "name";
  enname ← py_getitem data "enname";
  Ok (LibraryFloor.mk id name enname (Library.id library)).

Definition get_library_floors (self : LibQuery) (library : Library.t)
    : io (list LibraryFloor.t) :=
  response_json ← get_json self (LIBRARY_AREAS_URL +:+ py_str (Library.id library)) None;
  lift (
    status ← py_getitem response_json "status";
    _ ← py_assert (py_eq status (JInt 1));
    data ← py_getitem response_json "data";
    list ← py_getitem data "list";
    data_list ← py_getitem list "childArea";
    items ← py_iter data_list;
    comprehension is_valid (floor_of library) items).

(** The date string of both [get_library_sections] and
    [get_library_day]; [now] is what [time.time()] reads. *)
Definition resolve_date (now : Z) (day : Day) : string :=
  strftime "%Y-%m-%d"
    (localtime utc_offset (now + (if decide (day = Tomorrow) then 86400 else 0))).

Definition section_of (floor : LibraryFloor.t) (data : json)
    : result LibrarySection.t :=
  id ← py_getitem data "id";
  name ← py_getitem data "name";
  enname ← py_getitem data "enname";
  total ← py_getitem data "TotalCount";
  total' ← py_getitem data "TotalCount";
  unavailable ← py_getitem data "UnavailableSpace";
  available ← py_sub total' unavailable;
  Ok (LibrarySection.mk id name enname total available (LibraryFloor.id floor)).

Definition get_library_sections (self : LibQuery) (now : Z)
    (floor : LibraryFloor.t) (day : Day) : io (list LibrarySection.t) :=
  let date := resolve_date now day in
  response_json ← get_json self
    (LIBRARY_AREAS_URL +:+ py_str (LibraryFloor.id floor) +:+ "/date/" +:+ date) None;
  lift (
    data ← py_getitem response_json "data";
    list ← py_getitem data "list";
    data_list ← py_getitem list "childArea";
    items ← py_iter data_list;
    sections ← comprehension is_valid (section_of floor) items;
    sorted LibrarySection.id sections).

(** The condition [data["day"] == date]. *)
Definition is_day (date : string) (data : json) : result bool :=
  d ← py_getitem data "day";
  Ok (py_eq d (JStr date)).

Definition day_of (day : Day) (data : json) : result LibraryDay.t :=
  id ← py_getitem data "id";
  date ← py_getitem data "day";
  startTime ← (t ← py_getitem data "startTime"; s ← py_getitem t "date"; py_slice s 11 16);
  endTime ← (t ← py_getitem data "endTime"; s ← py_getitem t "date"; py_slice s 11 16);
  Ok (LibraryDay.mk id date startTime endTime day).

Definition get_library_day (self : LibQuery) (now : Z)
    (section : LibrarySection.t) (day : Day) : io LibraryDay.t :=
  let date := resolve_date now day in
  response_json ← get_json self
    (LIBRARY_DAYS_URL +:+ py_str (LibrarySection.id section)) None;
  lift (
    data ← py_getitem response_json "data";
    data_list ← py_getitem data "list";
    items ← py_iter data_list;
    the_day ← comprehension (is_day date) (day_of day) items;
    _ ← py_assert (bool_decide (length the_day = 1%nat));
    match the_day with
    | x :: _ => Ok x
    | [] => Raise IndexError
    end).

Definition seat_of (section : LibrarySection.t) (data : json)
    : result LibrarySeat.t :=
  id ← py_getitem data "id";
  name ← py_getitem data "name";
  type ← py_getitem data "area_type";
  status ← py_getitem data "status";
  Ok (LibrarySeat.mk id name type status (LibrarySection.id section)).

(** The [params] of the seat query; [now] is the clock that
    [time.localtime()] reads. *)
Definition seats_params (now : Z) (section : LibrarySection.t)
    (day : LibraryDay.t) : gmap string json :=
  let now_hm := strftime "%H:%M" (localtime utc_offset now) in
  {[ "area" := LibrarySection.id section;
     "segment" := LibraryDay.id day;
     "day" := LibraryDay.date day;
     "startTime" := (if decide (LibraryDay.day day = Today)
                     then JStr now_hm else LibraryDay.startTime day);
     "endTime" := LibraryDay.endTime day ]}.

Definition get_library_seats (self : LibQuery) (now : Z)
    (section : LibrarySection.t) (day : LibraryDay.t)
    : io (list LibrarySeat.t) :=
  response_json ← get_json self LIBRARY_SEATS_URL
    (Some (seats_params now section day));
  lift (
    data ← py_getitem response_json "data";
    data_list ← py_getitem data "list";
    items ← py_iter data_list;
    comprehension no_filter (seat_of section) items).

End LibQuery.

(** ** The two login routines *)

(** What is observable of the machine during a login: whether the
    browser process started by the routine is alive, and what has been
    printed. *)
Record machine : Type := mk_machine {
  browser_running : bool;
  stdout : list string;
}.

Definition boot : machine := mk_machine false [].

(** How the outside world answers each call of a login routine: the
    browser driver, the terminal, and the sleeping thread (which a
    [KeyboardInterrupt] may wake). The address bar is read once per
    turn of the polling loop. *)
Record world : Type := mk_world {
  on_Chrome : result unit;
  on_get : result unit;
  on_send_user : result unit;
  on_send_pass : result unit;
  on_doLogin : result unit;
  on_current_url : nat → result string;
  on_sleep : nat → result unit;
  on_last_sleep : result unit;
  on_input : result unit;
  on_get_cookies : result (list (gmap string string));
  on_userAgent : result string;
  on_quit : result unit;
}.

(** A step of a login routine: it changes the machine and returns,
    raises, or ([None]) is still waiting when the fuel of the polling
    loop runs out. *)
Definition proc (A : Type) : Type := machine → option (result A) * machine.

#[global] Instance proc_ret : MRet proc := fun _ a m => (Some (Ok a), m).
#[global] Instance proc_bind : MBind proc := fun _ _ f c m =>
  match c m with
  | (Some (Ok a), m') => f a m'
  | (Some (Raise e), m') => (Some (Raise e), m')
  | (None, m') => (None, m')
  end.

Definition call {A : Type} (r : result A) : proc A := fun m => (Some r, m).

Definition print (line : string) : proc unit := fun m =>
  (Some (Ok tt), mk_machine (browser_running m) (stdout m ++ [line])).

(** [try: body finally: cleanup]. The cleanup runs whether the body
    returned or raised; an exception of the cleanup replaces the
    outcome of the body. *)
Definition try_finally {A : Type} (body : proc A) (cleanup : proc unit)
    : proc A := fun m =>
  match body m with
  | (Some r, m') =>
      match cleanup m' with
      | (Some (Ok _), m'') => (Some r, m'')
      | (Some (Raise e), m'') => (Some (Raise e), m'')
      | (None, m'') => (None, m'')
      end
  | (None, m') => (None, m')
  end.

Definition is_Exception (e : exn) : bool :=
  match e with
  | KeyboardInterrupt => false
  | _ => true
  end.

(** [try: body except Exception as e: handler e] *)
Definition try_except {A : Type} (body : proc A) (handler : exn → proc A)
    : proc A := fun m =>
  match body m with
  | (Some (Raise e), m') =>
      if is_Exception e then handler e m' else (Some (Raise e), m')
  | other => other
  end.

(** [needle in haystack] *)
Definition py_in (needle haystack : string) : bool :=
  bool_decide (is_Some (String.index 0 needle haystack)).

Section Login.

Context (w : world).

(** [webdriver.Chrome(...)]: when the constructor returns, the browser
    is running; when it raises, the driver has given up the process it
    may have started. *)
Definition Chrome : proc unit := fun m =>
  match on_Chrome w with
  | Ok _ => (Some (Ok tt), mk_machine true (stdout m))
  | Raise e => (Some (Raise e), m)
  end.

(** [driver.quit()]: the driver stops the browser process, also when
    the call then reports an error. *)
Definition quit : proc unit := fun m =>
  (Some (on_quit w), mk_machine false (stdout m)).

(** [session.cookies.set(cookie["name"], cookie["value"],
    domain=cookie["domain"], path=cookie["path"])] for each cookie. *)
Definition dict_get (d : gmap string string) (k : string) : result string :=
  match d !! k with
  | Some v => Ok v
  | None => Raise KeyError
  end.

(** The value under which the jar of [requests] files a cookie:
    [RequestsCookieJar.set_cookie] rewrites a value that starts and
    ends with a double quote, replacing every backslash followed by a
    double quote by nothing ([str.replace], from left to right, an
    occurrence starting where the previous one ended). Any other value
    is filed as it is. *)
Definition double_quote : ascii := "034"%char.
Definition backslash : ascii := "092"%char.

Definition starts_with (c : ascii) (s : string) : bool :=
  match s with
  | String x _ => Ascii.eqb x c
  | EmptyString => false
  end.

Fixpoint ends_with (c : ascii) (s : string) : bool :=
  match s with
  | EmptyString => false
  | String x EmptyString => Ascii.eqb x c
  | String _ rest => ends_with c rest
  end.

Fixpoint without_escaped_quotes (s : string) : string :=
  match s with
  | String x (String y rest as tail) =>
      if Ascii.eqb x backslash && Ascii.eqb y double_quote
      then without_escaped_quotes rest
      else String x (without_escaped_quotes tail)
  | other => other
  end.

Definition filed_value (value : string) : string :=
  if starts_with double_quote value && ends_with double_quote value
  then without_escaped_quotes value
  else value.

Fixpoint set_cookies (jar : cookiejar) (l : list (gmap string string))
    : result cookiejar :=
  match l with
  | [] => Ok jar
  | cookie :: l' =>
      name ← dict_get cookie "name";
      value ← dict_get cookie "value";
      domain ← dict_get cookie "domain";
      path ← dict_get cookie "path";
      set_cookies (<[(domain, path, name) := filed_value value]> jar) l'
  end.

(** The part shared by both routines, from [driver.get_cookies()] to
    the assignment of [headers]. *)
Definition extract : proc (Session * gmap string string) :=
  cookies ← call (on_get_cookies w);
  user_agent ← call (on_userAgent w);
  jar ← call (set_cookies ∅ cookies);
  mret (mk_Session jar, {[ "User-Agent" := user_agent ]}).

(** [while "webvpn.tsinghua.edu.cn" not in driver.current_url:
    time.sleep(1)], from the [i]-th reading on. *)
Fixpoint poll (fuel i : nat) : proc unit :=
  match fuel with
  | O => fun m => (None, m)
  | S fuel' =>
      url ← call (on_current_url w i);
      if py_in "webvpn.tsinghua.edu.cn" url then mret tt
      else _ ← call (on_sleep w i); poll fuel' (S i)
  end.

Definition webvpn_login (fuel : nat) (username password : string)
    : proc LibQuery :=
  _ ← Chrome;
  '(session, headers) ←
    try_finally
      (try_except
         (_ ← call (on_get w);
          _ ← print "Browser opened. Logging in automatically...";
          _ ← call (on_send_user w);
          _ ← call (on_send_pass w);
          _ ← call (on_doLogin w);
          _ ← poll fuel 0;
          _ ← print "Login successful.";
          _ ← call (on_last_sleep w);
          extract)
         (fun e =>
            _ ← print "An error occurred during login. Try logging in manually.";
            call (Raise e)))
      (_ ← quit; print "
Browser closed.");
  mret (mk_LibQuery session headers).

Definition webvpn_login_manual : proc LibQuery :=
  _ ← Chrome;
  '(session, headers) ←
    try_finally
      (_ ← call (on_get w);
       _ ← print "Browser opened. Please log in through the browser interface.";
       _ ← print "Press Enter after you have successfully logged in...";
       _ ← call (on_input w);
       extract)
      (_ ← quit; print "
Browser closed.");
  mret (mk_LibQuery session headers).

End Login.

(** ** Notions used to state the properties *)

(** [a <= b] in the sense the sort relies on: [b < a] is evaluated and
    is false. *)
Definition py_le (a b : json) : Prop := py_lt b a = Ok false.

(** Two neighbours of a sorted list, whatever the keys are: the sort
    has either seen the left one smaller, or seen that the right one
    is not smaller. *)
Definition in_order (a b : json) : Prop :=
  py_lt a b = Ok true ∨ py_lt b a = Ok false.

(** Keys that are numbers or strings. *)
Definition scalar (v : json) : Prop :=
  match v with
  | JBool _ | JInt _ | JStr _ => True
  | _ => False
  end.

(** The elements for which the condition of a comprehension is
    evaluated and holds. *)
Definition passes {A : Type} (keep : A → result bool) (data : A) : bool :=
  match keep data with
  | Ok true => true
  | _ => false
  end.

(** The entries that pass [data["isValid"] == 1]. *)
Definition valid (data : json) : bool := passes is_valid data.

(** The entries whose [day] field is [date]. *)
Definition on_date (date : string) (data : json) : bool :=
  passes (is_day date) data.

(** The same two conditions as the specification words them, without
    reference to the comprehensions. The validity flag of an entry
    equals 1: the entry is an object whose [isValid] member is the
    integer 1 or, since Python has [True == 1], the boolean [true]. *)
Definition flag_is_one (data : json) : bool :=
  match data with
  | JDict d =>
      match d !! "isValid" with
      | Some (JInt 1) | Some (JBool true) => true
      | _ => false
      end
  | _ => false
  end.

(** The date field of an entry equals the date string: the entry is an
    object whose [day] member is that string. *)
Definition dated (date : string) (data : json) : bool :=
  match data with
  | JDict d =>
      match d !! "day" with
      | Some (JStr s) => String.eqb s date
      | _ => false
      end
  | _ => false
  end.

(** A day-segment entry with an identifier and two timestamp objects
    whose [date] members are the strings [s] and [e]. *)
Definition segment_fields (data id : json) (s e : string) : Prop :=
  ∃ d ds de,
    data = JDict d ∧ d !! "id" = Some id ∧
    d !! "startTime" = Some (JDict ds) ∧ ds !! "date" = Some (JStr s) ∧
    d !! "endTime" = Some (JDict de) ∧ de !! "date" = Some (JStr e).

(** An entry that is an object with a [day] member. *)
Definition has_day (data : json) : Prop :=
  ∃ d v, data = JDict d ∧ d !! "day" = Some v.

(** The elements of [response_json["data"]["list"]] and of
    [response_json["data"]["list"]["childArea"]]. *)
Definition list_items (response_json : json) : result (list json) :=
  data ← py_getitem response_json "data";
  data_list ← py_getitem data "list";
  py_iter data_list.

Definition child_areas (response_json : json) : result (list json) :=
  data ← py_getitem response_json "data";
  list ← py_getitem data "list";
  data_list ← py_getitem list "childArea";
  py_iter data_list.

(** The requests of the five operations. *)
Definition request_of (self : LibQuery) (url : string)
    (params : option (gmap string json)) : request :=
  mk_request (session self) url (headers self) true params.

(** The Gregorian calendar inside one 400-year era, in years that start
    on March 1st: the days before a year, the year a day falls in, the
    length of a year, and the date of a day of a year. *)
Definition days_before_year (y : Z) : Z := 365 * y + y `div` 4 - y `div` 100.

Definition year_of_era (doe : Z) : Z :=
  (doe - doe `div` 1460 + doe `div` 36524 - doe `div` 146096) `div` 365.

Definition year_length (y : Z) : Z :=
  days_before_year (y + 1) - days_before_year y + (if y =? 399 then 1 else 0).

Definition civil_in_year (y doy : Z) : Z * Z * Z :=
  let mp := (5 * doy + 2) `div` 153 in
  let d := doy - (153 * mp + 2) `div` 5 + 1 in
  let m := if mp <? 10 then mp + 3 else mp - 9 in
  (if m <=? 2 then y + 1 else y, m, d).

Definition shift_years (k : Z) (date : Z * Z * Z) : Z * Z * Z :=
  let '(y, m, d) := date in (y + k, m, d).

(** The request of each operation. *)
Section requests.

Context (py_str : json → string).
Context (utc_offset : Z → Z).
Context (self : LibQuery).

Definition list_request : request :=
  request_of self LIBRARY_LIST_URL None.

Definition floors_request (library : Library.t) : request :=
  request_of self (LIBRARY_AREAS_URL +:+ py_str (Library.id library)) None.

Definition sections_request (now : Z) (floor : LibraryFloor.t) (day : Day)
    : request :=
  request_of self
    (LIBRARY_AREAS_URL +:+ py_str (LibraryFloor.id floor) +:+ "/date/"
       +:+ resolve_date utc_offset now day) None.

Definition day_request (section : LibrarySection.t) : request :=
  request_of self (LIBRARY_DAYS_URL +:+ py_str (LibrarySection.id section)) None.

Definition seats_request (now : Z) (section : LibrarySection.t)
    (day : LibraryDay.t) : request :=
  request_of self LIBRARY_SEATS_URL
    (Some (seats_params utc_offset now section day)).

End requests.

(** The server accepts a request with an envelope: a response comes
    back, its HTTP status is 200, its body decodes to the envelope, and
    the envelope's [status] equals 1. *)
Definition accepted (server : request → result response) (req : request)
    (envelope : json) : Prop :=
  ∃ resp, server req = Ok resp ∧
    status_code resp = 200 ∧
    body resp = Some envelope ∧
    ∃ status, py_getitem envelope "status" = Ok status ∧
              py_eq status (JInt 1) = true.

(** The two counts of a section entry, when they are numbers. *)
Definition count (data : json) (k : string) : option Z :=
  match py_getitem data k with
  | Ok v => as_int v
  | Raise _ => None
  end.

(** The invariant the specification states for a Section. *)
Definition seats_invariant (s : LibrarySection.t) : Prop :=
  ∃ a t, as_int (LibrarySection.available s) = Some a ∧
         as_int (LibrarySection.total s) = Some t ∧
         0 ≤ a ≤ t.

(** The wall-clock time of the instant [now], truncated to minutes. *)
Definition wall_clock_minutes (utc_offset : Z → Z) (now : Z) : string :=
  let second_of_day := (now + utc_offset now) `mod` 86400 in
  pad2 (second_of_day `div` 3600) +:+ ":" +:+
  pad2 ((second_of_day `mod` 3600) `div` 60).

(** Payloads of the examples: a section entry, a child-area listing,
    and the floor they are asked for. *)
Definition section_entry (id total unavailable isValid : Z) : json :=
  JDict {[ "id" := JInt id; "name" := JStr "A"; "enname" := JStr "A";
           "TotalCount" := JInt total; "UnavailableSpace" := JInt unavailable;
           "isValid" := JInt isValid ]}.

Definition child_area_listing (entries : list json) : json :=
  JDict {[ "status" := JInt 1;
           "data" := JDict {[ "list" := JDict {[ "childArea" := JList entries ]} ]} ]}.

Definition first_floor : LibraryFloor.t :=
  LibraryFloor.mk (JInt 1) (JStr "F1") (JStr "F1") (JInt 1).

(** [str] on integers. *)
Definition decimal (v : json) : string :=
  match v with
  | JInt n => pretty n
  | _ => ""
  end.

(** A time zone that observes daylight saving time: four hours behind
    UTC until 2024-11-03 06:00 UTC, five hours behind from then on. *)
Definition new_york (t : Z) : Z :=
  if t <? 1730613600 then -14400 else -18000.

(** A time zone without daylight saving time, eight hours ahead of
    UTC. *)
Definition beijing (t : Z) : Z := 28800.

(** ** Examples *)

(** A server that answers every request with status 200 and the given
    body. *)
Definition answering (v : json) (r : request) : result response :=
  Ok (mk_response 200 (Some v)).

Definition anonymous : LibQuery := mk_LibQuery (mk_Session ∅) ∅.

Definition empty_listing : json :=
  JDict {[ "status" := JInt 1; "data" := JDict {[ "list" := JList [] ]} ]}.

(** The scenario of the specification: sections 5 (10 seats, 3
    unavailable) and 2 (4 seats, 4 unavailable), and an invalid
    entry. *)
Definition scenario : json :=
  child_area_listing
    [section_entry 5 10 3 1; section_entry 2 4 4 1; section_entry 7 9 0 0].

Definition section_2 : LibrarySection.t :=
  LibrarySection.mk (JInt 2) (JStr "A") (JStr "A") (JInt 4) (JInt 0) (JInt 1).

Definition section_5 : LibrarySection.t :=
  LibrarySection.mk (JInt 5) (JStr "A") (JStr "A") (JInt 10) (JInt 7) (JInt 1).

Definition seat_entry (id status : Z) : json :=
  JDict {[ "id" := JInt id; "name" := JStr "001"; "area_type" := JInt 1;
           "status" := JInt status ]}.

(** A day-segment entry, and a listing with one segment for each of
    2024-01-01 and 2024-01-02. *)
Definition day_entry (id : Z) (date opening closing : string) : json :=
  JDict {[ "id" := JInt id; "day" := JStr date;
           "startTime" := JDict {[ "date" := JStr opening ]};
           "endTime" := JDict {[ "date" := JStr closing ]} ]}.

Definition new_year : json :=
  day_entry 11 "2024-01-01" "2024-01-01 08:00:00.000000"
    "2024-01-01 22:00:00.000000".

Definition second_of_january : json :=
  day_entry 12 "2024-01-02" "2024-01-02 08:00:00.000000"
    "2024-01-02 22:00:00.000000".

Definition days_listing : json :=
  JDict {[ "status" := JInt 1;
           "data" := JDict {[ "list" := JList [new_year; second_of_january] ]} ]}.

(** A child-area listing whose entries carry flags of several kinds:
    1, 0, 2, the string "1", [true] and [null]. *)
Definition flagged_entry (id total unavailable : Z) (flag : json) : json :=
  JDict {[ "id" := JInt id; "name" := JStr "A"; "enname" := JStr "A";
           "TotalCount" := JInt total; "UnavailableSpace" := JInt unavailable;
           "isValid" := flag ]}.

Definition mixed_flags : json :=
  child_area_listing
    [flagged_entry 5 10 3 (JInt 1); flagged_entry 7 9 0 (JInt 0);
     flagged_entry 8 9 0 (JInt 2); flagged_entry 9 9 0 (JStr "1");
     flagged_entry 2 4 4 (JBool true); flagged_entry 6 9 0 JNull].

(** Day-segment listings out of shape: two entries of 2024-01-01 that
    have nothing but their date, and one entry without a date. *)
Definition bare_day : json := JDict {[ "day" := JStr "2024-01-01" ]}.

Definition bare_days_listing : json :=
  JDict {[ "status" := JInt 1;
           "data" := JDict {[ "list" := JList [bare_day; bare_day] ]} ]}.

Definition undated_listing : json :=
  JDict {[ "status" := JInt 1;
           "data" := JDict {[ "list" := JList [JDict {[ "id" := JInt 11 ]}] ]} ]}.

(** A day-segment entry whose timestamps carry no time of day. *)
Definition timeless_day : json :=
  day_entry 13 "2024-01-03" "2024-01-03" "2024-01-03 ".

(** A login that goes through: the address bar shows the identity
    provider twice, then the tunnel. *)
Definition smooth_login : world :=
  {| on_Chrome := Ok tt; on_get := Ok tt;
     on_send_user := Ok tt; on_send_pass := Ok tt; on_doLogin := Ok tt;
     on_current_url := fun i =>
       Ok (if (i <? 2)%nat then "https://id.tsinghua.edu.cn/do/off/ui/auth/login/form"
           else "https://webvpn.tsinghua.edu.cn/");
     on_sleep := fun _ => Ok tt; on_last_sleep := Ok tt; on_input := Ok tt;
     on_get_cookies :=
       Ok [ {[ "name" := "wengine_vpn_ticket"; "value" := "0123";
               "domain" := "webvpn.tsinghua.edu.cn"; "path" := "/" ]} ];
     on_userAgent := Ok "Mozilla/5.0";
     on_quit := Ok tt |}.

(** A login during which the user-name field is not found. *)
Definition broken_login : world :=
  {| on_Chrome := Ok tt; on_get := Ok tt;
     on_send_user := Raise WebDriverException;
     on_send_pass := Ok tt; on_doLogin := Ok tt;
     on_current_url := fun _ => Ok "https://id.tsinghua.edu.cn/";
     on_sleep := fun _ => Ok tt; on_last_sleep := Ok tt; on_input := Ok tt;
     on_get_cookies := Ok []; on_userAgent := Ok "Mozilla/5.0";
     on_quit := Ok tt |}.

(** * The entry point, further notions and examples *)

(** ** [main] *)

(** [l[0]] *)
Definition py_first {A : Type} (l : list A) : result A :=
  match l with
  | x :: _ => Ok x
  | [] => Raise IndexError
  end.

Section main.

Context (server : request → result response).
Context (py_str : json → string).
Context (utc_offset : Z → Z).

(** [main] from [lib.get_library_list()] on, [lib] being what the login
    returned. The three instants are what the clock reads in
    [get_library_sections], [get_library_day] and [get_library_seats];
    both day tags are left to their default. [snoop.pp] writes its
    argument to the standard error stream, which the trace does not
    record, and returns it. *)
Definition main_walk (lib : LibQuery) (t1 t2 t3 : Z) : io unit :=
  lib_list ← get_library_list server lib;
  library ← lift (py_first lib_list);
  lib_floors ← get_library_floors server py_str lib library;
  floor ← lift (py_first lib_floors);
  lib_sections ← get_library_sections server py_str utc_offset lib t1 floor Today;
  section ← lift (py_first lib_sections);
  lib_day ← get_library_day server py_str utc_offset lib t2 section Today;
  lib_seats ← get_library_seats server utc_offset lib t3 section lib_day;
  mret tt.

End main.

(** ** Shapes of payload entries *)

(** An object that has all the listed members. *)
Definition has_members (keys : list string) (data : json) : Prop :=
  ∃ d, data = JDict d ∧ Forall (fun k => is_Some (d !! k)) keys.

(** The nested [date] member of a timestamp object:
    [data[k]["date"]]. *)
Definition timestamp (data : json) (k : string) : result json :=
  t ← py_getitem data k; py_getitem t "date".

(** Numbers (integers and booleans), as opposed to strings. *)
Definition numeric (v : json) : bool :=
  match v with
  | JBool _ | JInt _ => true
  | _ => false
  end.

(** A section entry with all its members, a numeric identifier and
    numeric counts. *)
Definition section_shaped (data : json) : Prop :=
  ∃ d id total unavailable,
    data = JDict d ∧
    d !! "id" = Some id ∧ numeric id ∧
    is_Some (d !! "name") ∧ is_Some (d !! "enname") ∧
    d !! "TotalCount" = Some total ∧ numeric total ∧
    d !! "UnavailableSpace" = Some unavailable ∧ numeric unavailable.

(** The sections whose identifier is the number [k]. *)
Definition has_id (k : Z) (s : LibrarySection.t) : bool :=
  bool_decide (as_int (LibrarySection.id s) = Some k).

(** A valid section entry whose identifier is any value, and the
    section built from it on [first_floor]. *)
Definition labelled_entry (id : json) (name : string) (total unavailable : Z)
    : json :=
  JDict {[ "id" := id; "name" := JStr name; "enname" := JStr name;
           "TotalCount" := JInt total; "UnavailableSpace" := JInt unavailable;
           "isValid" := JInt 1 ]}.

Definition labelled_section (id : json) (name : string) (total unavailable : Z)
    : LibrarySection.t :=
  LibrarySection.mk id (JStr name) (JStr name) (JInt total)
    (JInt (total - unavailable)) (JInt 1).

(** A valid library entry, and an accepted envelope with a list for
    [data.list]. *)
Definition library_entry (id : Z) (name : string) : json :=
  JDict {[ "id" := JInt id; "name" := JStr name; "nameMerge" := JStr name;
           "enname" := JStr name; "ennameMerge" := JStr name;
           "isValid" := JInt 1 ]}.

Definition listing (entries : list json) : json :=
  JDict {[ "status" := JInt 1;
           "data" := JDict {[ "list" := JList entries ]} ]}.

(** A server for a whole run on 2024-01-01: one library (1) with one
    floor (3), whose sections are those of [scenario]; the day-segments
    of [days_listing] and one free seat for section 2. Any other
    address is not found. *)
Definition campus (r : request) : result response :=
  if String.eqb (req_url r) LIBRARY_LIST_URL then
    Ok (mk_response 200 (Some (listing [library_entry 1 "North"])))
  else if String.eqb (req_url r) (LIBRARY_AREAS_URL +:+ "1") then
    Ok (mk_response 200
          (Some (child_area_listing [labelled_entry (JInt 3) "F3" 0 0])))
  else if String.eqb (req_url r) (LIBRARY_AREAS_URL +:+ "3/date/2024-01-01") then
    Ok (mk_response 200 (Some scenario))
  else if String.eqb (req_url r) (LIBRARY_DAYS_URL +:+ "2") then
    Ok (mk_response 200 (Some days_listing))
  else if String.eqb (req_url r) LIBRARY_SEATS_URL then
    Ok (mk_response 200 (Some (listing [seat_entry 1 1])))
  else Ok (mk_response 404 None).

(** The same with a library list that has no valid entry. *)
Definition closed_campus (r : request) : result response :=
  if String.eqb (req_url r) LIBRARY_LIST_URL then
    Ok (mk_response 200 (Some (listing [section_entry 1 0 0 0])))
  else campus r.

(** ** Cookies *)

(** What a cookie is filed under in the jar: its domain, path and
    name. *)
Definition cookie_key (c : gmap string string)
    : option (string * string * string) :=
  domain ← c !! "domain"; path ← c !! "path"; name ← c !! "name";
  Some (domain, path, name).

(** A cookie with the four members that the login routines read. *)
Definition complete (c : gmap string string) : Prop :=
  is_Some (c !! "name") ∧ is_Some (c !! "value") ∧
  is_Some (c !! "domain") ∧ is_Some (c !! "path").

(** A login interrupted from the keyboard while it waits for the
    redirect, and one whose browser fails to quit. *)
Definition interrupted_login : world :=
  {| on_Chrome := Ok tt; on_get := Ok tt;
     on_send_user := Ok tt; on_send_pass := Ok tt; on_doLogin := Ok tt;
     on_current_url := fun _ => Ok "https://id.tsinghua.edu.cn/";
     on_sleep := fun i => if (i <? 1)%nat then Ok tt else Raise KeyboardInterrupt;
     on_last_sleep := Ok tt; on_input := Ok tt;
     on_get_cookies := Ok []; on_userAgent := Ok "Mozilla/5.0";
     on_quit := Ok tt |}.

Definition stuck_browser : world :=
  {| on_Chrome := Ok tt; on_get := Ok tt;
     on_send_user := Ok tt; on_send_pass := Ok tt; on_doLogin := Ok tt;
     on_current_url := fun _ => Ok "https://webvpn.tsinghua.edu.cn/";
     on_sleep := fun _ => Ok tt; on_last_sleep := Ok tt; on_input := Ok tt;
     on_get_cookies := Ok []; on_userAgent := Ok "Mozilla/5.0";
     on_quit := Raise WebDriverException |}.

(** Two cookies filed under the same key, the second issued later. *)
Definition old_ticket : gmap string string :=
  {[ "name" := "ticket"; "value" := "old";
     "domain" := "webvpn.tsinghua.edu.cn"; "path" := "/" ]}.

Definition new_ticket : gmap string string :=
  {[ "name" := "ticket"; "value" := "new";
     "domain" := "webvpn.tsinghua.edu.cn"; "path" := "/" ]}.

Definition ticket_key : string * string * string :=
  ("webvpn.tsinghua.edu.cn", "/", "ticket").

(** A value enclosed in double quotes, with one escaped quote inside:
    the six characters quote, a, backslash, quote, b, quote; and a
    cookie that carries it. *)
Definition quoted_value : string :=
  String double_quote
    (String "a" (String backslash
       (String double_quote (String "b" (String double_quote ""))))).

Definition quoted_ticket : gmap string string :=
  {[ "name" := "ticket"; "value" := quoted_value;
     "domain" := "webvpn.tsinghua.edu.cn"; "path" := "/" ]}.

(** The exceptions that the outside world raises during a login. *)
Definition raised_by (w : world) (e : exn) : Prop :=
  on_Chrome w = Raise e ∨ on_get w = Raise e ∨
  on_send_user w = Raise e ∨ on_send_pass w = Raise e ∨
  on_doLogin w = Raise e ∨
  (∃ i, on_current_url w i = Raise e) ∨ (∃ i, on_sleep w i = Raise e) ∨
  on_last_sleep w = Raise e ∨ on_input w = Raise e ∨
  on_get_cookies w = Raise e ∨ on_userAgent w = Raise e ∨
  on_quit w = Raise e.

(** * Properties *)

(** ** The calendar *)

Ltac div_lia := Z.to_euclidean_division_equations; lia.

Ltac split_test :=
  match goal with
  | |- context [Z.eqb ?a ?b] => destruct (Z.eqb_spec a b)
  | |- context [Z.ltb ?a ?b] => destruct (Z.ltb_spec a b)
  | |- context [Z.leb ?a ?b] => destruct (Z.leb_spec a b)
  end.

Lemma date_eq (y m d y' m' d' : Z) :
  y = y' → m = m' → d = d' → (y, m, d) = (y', m', d').
Proof. by intros -> -> ->. Qed.

(** Every day of an era falls in exactly one of its 400 years. *)
Lemma year_of_era_range doe :
  0 ≤ doe < 146097 →
  0 ≤ year_of_era doe < 400 ∧
  0 ≤ doe - days_before_year (year_of_era doe) < year_length (year_of_era doe).
Proof.
  intros H. unfold year_length, year_of_era, days_before_year.
  split_test; div_lia.
Qed.

Lemma year_of_era_unique doe y :
  0 ≤ y < 400 →
  0 ≤ doe - days_before_year y < year_length y →
  year_of_era doe = y.
Proof.
  intros Hy H. unfold year_length, year_of_era, days_before_year in *.
  destruct (Z.eqb_spec y 399); div_lia.
Qed.

(** A year that starts in March is long when the civil year in which
    it ends is a leap year. *)
Lemma year_length_leap y :
  0 ≤ y < 400 →
  year_length y = if is_leap (y + 1) then 366 else 365.
Proof.
  intros Hy. unfold year_length, days_before_year, is_leap.
  repeat split_test; cbn [andb orb negb]; div_lia.
Qed.

Lemma month_index_cases mp :
  0 ≤ mp ≤ 11 →
  mp = 0 ∨ mp = 1 ∨ mp = 2 ∨ mp = 3 ∨ mp = 4 ∨ mp = 5 ∨
  mp = 6 ∨ mp = 7 ∨ mp = 8 ∨ mp = 9 ∨ mp = 10 ∨ mp = 11.
Proof. lia. Qed.

(** Inside a year, the date of the next day is the next date. *)
Lemma civil_in_year_succ y doy :
  0 ≤ doy → doy + 1 < (if is_leap (y + 1) then 366 else 365) →
  civil_in_year y (doy + 1) = next_day (civil_in_year y doy).
Proof.
  intros H0 H1. unfold civil_in_year, next_day, days_in_month. cbv zeta.
  remember ((5 * doy + 2) `div` 153) as mp eqn:Emp.
  remember ((5 * (doy + 1) + 2) `div` 153) as mp' eqn:Emp'.
  assert (0 ≤ mp ≤ 11 ∧ (mp' = mp ∨ mp' = mp + 1) ∧
          153 * mp ≤ 5 * doy + 2 < 153 * mp + 153 ∧
          153 * mp' ≤ 5 * doy + 7 < 153 * mp' + 153) as (Hr & Hs & Hb & Hb').
  { subst mp mp'. destruct (is_leap (y + 1)); div_lia. }
  clear Emp Emp'.
  destruct (is_leap (y + 1)) eqn:Hleap;
  destruct (month_index_cases mp Hr)
    as [->|[->|[->|[->|[->|[->|[->|[->|[->|[->|[->| ->]]]]]]]]]]];
  destruct Hs as [-> | ->];
  try (exfalso; lia);
  simpl Z.add in *; simpl Z.mul in *;
  repeat match goal with
  | |- context [Z.div (Zpos ?a) (Zpos ?b)] =>
      let v := eval vm_compute in (Z.div (Zpos a) (Zpos b)) in
      change (Z.div (Zpos a) (Zpos b)) with v
  end;
  simpl Z.ltb; simpl Z.leb; simpl Z.eqb; cbn [andb orb negb];
  repeat (rewrite ?Hleap; split_test; try (exfalso; lia));
  rewrite ?Hleap; try (exfalso; div_lia); apply date_eq; div_lia.
Qed.

(** The last day of a year is followed by March 1st. *)
Lemma civil_in_year_last y doy :
  doy + 1 = (if is_leap (y + 1) then 366 else 365) →
  civil_in_year (y + 1) 0 = next_day (civil_in_year y doy).
Proof.
  intros H. unfold civil_in_year, next_day, days_in_month. cbv zeta.
  destruct (is_leap (y + 1)) eqn:Hleap.
  - replace doy with 365 by lia. simpl. by rewrite Hleap.
  - replace doy with 364 by lia. simpl. by rewrite Hleap.
Qed.

Lemma civil_from_days_in_era z :
  civil_from_days z =
  let doe := (z + 719468) `mod` 146097 in
  shift_years (400 * ((z + 719468) `div` 146097))
    (civil_in_year (year_of_era doe) (doe - days_before_year (year_of_era doe))).
Proof.
  unfold civil_from_days, civil_in_year, year_of_era, days_before_year, shift_years.
  cbv zeta. destruct (_ <=? 2); apply date_eq; lia.
Qed.

Lemma is_leap_shift y k : is_leap (y + 400 * k) = is_leap y.
Proof.
  unfold is_leap.
  replace (y + 400 * k) with (y + (100 * k) * 4) at 1 by lia.
  replace (y + 400 * k) with (y + (4 * k) * 100) at 1 by lia.
  replace (y + 400 * k) with (y + k * 400) by lia.
  by rewrite !Z.mod_add by lia.
Qed.

Lemma next_day_shift k date :
  next_day (shift_years (400 * k) date) = shift_years (400 * k) (next_day date).
Proof.
  destruct date as [[y m] d]. unfold next_day, shift_years, days_in_month.
  rewrite is_leap_shift.
  repeat case_match; apply date_eq; lia.
Qed.

(** The date of the day after day [z] is the day after the date of
    day [z]: [civil_from_days] agrees with the calendar. *)
Lemma civil_from_days_succ z :
  civil_from_days (z + 1) = next_day (civil_from_days z).
Proof.
  rewrite (civil_from_days_in_era z), (civil_from_days_in_era (z + 1)). cbv zeta.
  rewrite next_day_shift.
  pose proof (Z.mod_pos_bound (z + 719468) 146097 ltac:(lia)) as Hb.
  pose proof (Z.div_mod (z + 719468) 146097 ltac:(lia)) as Hdm.
  set (q := (z + 719468) `div` 146097) in *.
  set (doe := (z + 719468) `mod` 146097) in *.
  destruct (decide (doe = 146096)) as [Hlast|Hin].
  - assert ((z + 1 + 719468) `div` 146097 = q + 1) as ->.
    { symmetry. apply (Z.div_unique _ _ _ 0); lia. }
    assert ((z + 1 + 719468) `mod` 146097 = 0) as ->.
    { symmetry. apply (Z.mod_unique _ _ (q + 1)); lia. }
    rewrite Hlast.
    change (year_of_era 0) with 0. change (year_of_era 146096) with 399.
    change (0 - days_before_year 0) with 0.
    change (146096 - days_before_year 399) with 365.
    change (civil_in_year 0 0) with (0, 3, 1).
    change (civil_in_year 399 365) with (400, 2, 29).
    change (next_day (400, 2, 29)) with (400, 3, 1).
    unfold shift_years. apply date_eq; lia.
  - assert ((z + 1 + 719468) `div` 146097 = q) as ->.
    { symmetry. apply (Z.div_unique _ _ _ (doe + 1)); lia. }
    assert ((z + 1 + 719468) `mod` 146097 = doe + 1) as ->.
    { symmetry. apply (Z.mod_unique _ _ q); lia. }
    f_equal.
    destruct (year_of_era_range doe ltac:(lia)) as [Hy Hdoy].
    set (y := year_of_era doe) in *.
    pose proof (year_length_leap y Hy) as Hlen.
    destruct (decide (doe + 1 - days_before_year y < year_length y)) as [Hlt|Hge].
    + rewrite (year_of_era_unique (doe + 1) y) by lia.
      replace (doe + 1 - days_before_year y) with (doe - days_before_year y + 1) by lia.
      apply civil_in_year_succ; lia.
    + assert (y ≠ 399) as Hne.
      { intros E. rewrite E in *. change (year_length 399) with 366 in *.
        change (days_before_year 399) with 145731 in *. lia. }
      assert (doe + 1 = days_before_year (y + 1)) as Hnext.
      { unfold year_length in *. destruct (Z.eqb_spec y 399); lia. }
      assert (year_of_era (doe + 1) = y + 1) as ->.
      { apply year_of_era_unique; [lia|].
        rewrite Hnext, year_length_leap by lia.
        destruct (is_leap (y + 1 + 1)); lia. }
      rewrite Hnext, Z.sub_diag.
      apply civil_in_year_last. lia.
Qed.

(** Twenty-four hours later, under an unchanged UTC offset, the local
    time shows the next date and the same time of day. *)
Lemma localtime_next_day utc_offset now :
  utc_offset (now + 86400) = utc_offset now →
  localtime utc_offset (now + 86400) =
  with_date (next_day (date_of (localtime utc_offset now)))
    (localtime utc_offset now).
Proof.
  intros Hoff. unfold localtime. rewrite Hoff.
  replace (now + 86400 + utc_offset now)
    with (now + utc_offset now + 1 * 86400) by lia.
  rewrite Z.div_add, Z.mod_add by lia.
  rewrite civil_from_days_succ.
  destruct (civil_from_days _) as [[y m] d] eqn:E.
  unfold date_of; cbn [tm_year tm_mon tm_mday].
  destruct (next_day (y, m, d)) as [[y' m'] d'] eqn:E'.
  reflexivity.
Qed.

(** ** Claim C3 *)

(** C3, counterexample. In a time zone with daylight saving time, half
    an hour after the local midnight that starts the 25-hour day
    2024-11-03, the date computed for tomorrow is the date computed
    for today, not the day after it. *)
Lemma resolve_date_tomorrow_dst :
  resolve_date new_york 1730608200 Today = "2024-11-03" ∧
  resolve_date new_york 1730608200 Tomorrow = "2024-11-03" ∧
  resolve_date new_york 1730608200 Tomorrow ≠
    strftime "%Y-%m-%d"
      (with_date (next_day (date_of (localtime new_york 1730608200)))
         (localtime new_york 1730608200)).
Proof. by vm_compute. Qed.

(** C3, amended. When the UTC offset in force 86400 seconds from now
    is the one in force now, the date computed for tomorrow is the
    calendar day after the date computed for today, across month and
    year ends. *)
Theorem resolve_date_tomorrow utc_offset now :
  utc_offset (now + 86400) = utc_offset now →
  resolve_date utc_offset now Today =
    strftime "%Y-%m-%d" (localtime utc_offset now) ∧
  resolve_date utc_offset now Tomorrow =
    strftime "%Y-%m-%d"
      (with_date (next_day (date_of (localtime utc_offset now)))
         (localtime utc_offset now)).
Proof.
  intros Hoff. unfold resolve_date. split.
  - by rewrite decide_False, Z.add_0_r by done.
  - by rewrite decide_True, localtime_next_day by done.
Qed.

Lemma resolve_date_tomorrow_witness :
  resolve_date beijing 1704067199 Today = "2024-01-01" ∧
  resolve_date beijing 1704067199 Tomorrow = "2024-01-02".
Proof.
  destruct (resolve_date_tomorrow beijing 1704067199 eq_refl) as [H1 H2].
  split; [rewrite H1 | rewrite H2]; reflexivity.
Defined.

(** ** Sequencing *)

Lemma bind_Ok {A B : Type} (m : result A) (f : A → result B) (b : B) :
  m ≫= f = Ok b ↔ ∃ a, m = Ok a ∧ f a = Ok b.
Proof.
  destruct m as [a|e]; cbn.
  - split; [by exists a | by intros (? & [= ->] & ?)].
  - split; [done | by intros (? & ? & ?)].
Qed.

Lemma py_assert_Ok (c : bool) (u : unit) : py_assert c = Ok u ↔ c = true.
Proof. destruct c, u; cbn; split; done. Qed.

(** Peels the binds of a computation that is known to have returned. *)
Ltac inv_Ok :=
  repeat match goal with
  | H : _ ≫= _ = Ok _ |- _ => apply bind_Ok in H as (? & ? & H)
  | H : py_assert _ = Ok _ |- _ => apply py_assert_Ok in H
  | H : Ok _ = Ok _ |- _ => injection H as H
  | H : Raise _ = Ok _ |- _ => discriminate H
  end.

(** ** [get_json] *)

Section get_json_facts.

Context (server : request → result response).
Context (self : LibQuery) (url : string) (params : option (gmap string json)).

(** Whatever the outcome, exactly one request goes out. *)
Lemma get_json_trace tr :
  (get_json server self url params tr).2 = tr ++ [request_of self url params].
Proof.
  unfold get_json, session_get, request_of, mbind, io_bind, lift, mret, io_ret.
  repeat (case_match; simplify_eq/=); done.
Qed.

Lemma get_json_Ok tr response_json :
  (get_json server self url params tr).1 = Ok response_json ↔
  ∃ resp, server (request_of self url params) = Ok resp ∧
    status_code resp = 200 ∧
    body resp = Some response_json ∧
    ∃ status, py_getitem response_json "status" = Ok status ∧
              py_eq status (JInt 1) = true.
Proof.
  unfold get_json, session_get, request_of, mbind, io_bind, lift, mret, io_ret,
    response_json_of, py_assert.
  destruct (server _) as [r|e]; cbn; split.
  - intros H. destruct (Z.eqb_spec (status_code r) 200) as [E|E]; [|done].
    cbn in H. destruct (body r) as [v|] eqn:Eb; [|done]. cbn in H.
    destruct (py_getitem v "status") as [st|] eqn:Est; [|done]. cbn in H.
    destruct (py_eq st (JInt 1)) eqn:Eeq; [|done]. cbn in H.
    injection H as ->. exists r. repeat split; try done. by exists st.
  - intros (r' & [= <-] & E & Eb & st & Est & Eeq).
    rewrite E, Eb. cbn. rewrite Est. cbn. by rewrite Eeq.
  - done.
  - by intros (? & ? & _).
Qed.

End get_json_facts.

(** ** Claim C1 *)

(** C1, counterexample. On an envelope with status 1, [get_json]
    returns the whole envelope, which is not its [data] member. *)
Lemma get_json_not_data :
  (get_json (answering empty_listing) anonymous LIBRARY_LIST_URL None []).1
    = Ok empty_listing ∧
  py_getitem empty_listing "data" = Ok (JDict {[ "list" := JList [] ]}) ∧
  (get_json (answering empty_listing) anonymous LIBRARY_LIST_URL None []).1
    ≠ Ok (JDict {[ "list" := JList [] ]}).
Proof.
  split; [by vm_compute|]. split; [by vm_compute|].
  intros H.
  apply (f_equal (fun r => match r with
                           | Ok v => py_getitem v "status"
                           | Raise e => Raise e
                           end)) in H.
  vm_compute in H. discriminate H.
Qed.

(** C1, amended. A call of [get_json] fails when the HTTP status is
    not 200, fails when the [status] member of the decoded envelope
    does not equal 1 (under Python's [==], for which [True] equals 1),
    and returns when the status is 200 and the envelope's [status]
    equals 1: what it returns then is the whole decoded envelope. *)
Theorem get_json_envelope (server : request → result response)
    (self : LibQuery) (url : string) (params : option (gmap string json))
    (tr : list request) (resp : response) :
  server (request_of self url params) = Ok resp →
  let outcome := (get_json server self url params tr).1 in
  (status_code resp ≠ 200 → outcome = Raise AssertionError) ∧
  (∀ envelope status,
     status_code resp = 200 → body resp = Some envelope →
     py_getitem envelope "status" = Ok status →
     py_eq status (JInt 1) = false →
     outcome = Raise AssertionError) ∧
  (∀ envelope status,
     status_code resp = 200 → body resp = Some envelope →
     py_getitem envelope "status" = Ok status →
     py_eq status (JInt 1) = true →
     outcome = Ok envelope) ∧
  (∀ v, outcome = Ok v → body resp = Some v).
Proof.
  intros Hresp. cbv zeta. repeat split.
  - intros Hs.
    unfold get_json, session_get, mbind, io_bind, lift, py_assert.
    fold (request_of self url params). rewrite Hresp.
    by destruct (Z.eqb_spec (status_code resp) 200).
  - intros envelope status Hs Hb Hst Hne.
    unfold get_json, session_get, mbind, io_bind, lift, response_json_of, py_assert.
    fold (request_of self url params).
    rewrite Hresp, Hs, Hb. cbn. rewrite Hst. cbn. by rewrite Hne.
  - intros envelope status Hs Hb Hst Heq.
    apply get_json_Ok. exists resp. repeat split; try done. by exists status.
  - intros v Hv. apply get_json_Ok in Hv as (r & Hr & _ & ? & _). congruence.
Qed.

Lemma get_json_envelope_witness :
  (get_json (answering empty_listing) anonymous LIBRARY_LIST_URL None []).1
    = Ok empty_listing.
Proof.
  eapply (get_json_envelope (answering empty_listing) anonymous
            LIBRARY_LIST_URL None [] (mk_response 200 (Some empty_listing)));
    [reflexivity | reflexivity | reflexivity | | ]; by vm_compute.
Defined.

(** ** Comprehensions *)

Section comprehension_facts.

Context {A B : Type} (keep : A → result bool) (build : A → result B).

(** A comprehension that returns has evaluated its condition on every
    element and has built, in order, the elements that pass it. *)
Lemma comprehension_Ok l xs :
  comprehension keep build l = Ok xs →
  Forall2 (fun data x => build data = Ok x) (filter (passes keep) l) xs ∧
  Forall (fun data => ∃ b, keep data = Ok b) l.
Proof.
  revert xs. induction l as [|data l IH]; intros xs H; cbn in H.
  - injection H as <-. by split; constructor.
  - apply bind_Ok in H as (b & Hb & H).
    destruct b.
    + inv_Ok. subst xs.
      match goal with Hl : comprehension _ _ l = Ok _ |- _ =>
        destruct (IH _ Hl) as [IH1 IH2] end.
      split; [|constructor; eauto].
      rewrite filter_cons_True by (unfold passes; by rewrite Hb).
      by constructor.
    + destruct (IH _ H) as [IH1 IH2].
      split; [|constructor; eauto].
      by rewrite filter_cons_False by (unfold passes; rewrite Hb; cbn; tauto).
Qed.

(** Conversely, it returns as soon as the condition can be evaluated
    everywhere and the elements that pass can be built. *)
Lemma comprehension_total l :
  Forall (fun data => ∃ b, keep data = Ok b) l →
  Forall (fun data => ∃ x, build data = Ok x) (filter (passes keep) l) →
  ∃ xs, comprehension keep build l = Ok xs.
Proof.
  induction l as [|data l IH]; intros Hk Hb; cbn.
  - by eexists.
  - apply Forall_cons in Hk as [[b Hkd] Hk]. rewrite Hkd. cbn.
    destruct b.
    + rewrite filter_cons_True in Hb by (unfold passes; by rewrite Hkd).
      apply Forall_cons in Hb as [[x Hx] Hb].
      destruct (IH Hk Hb) as [xs Hxs]. rewrite Hx, Hxs. cbn. by eexists.
    + rewrite filter_cons_False in Hb by (unfold passes; rewrite Hkd; cbn; tauto).
      by apply IH.
Qed.

End comprehension_facts.

(** ** The shape shared by the five operations *)

(** Each operation issues one request through [get_json] and then
    works on the decoded envelope without touching the network. *)
Lemma fetch_then {A : Type} (server : request → result response) (self : LibQuery)
    (url : string) (params : option (gmap string json))
    (k : json → result A) (tr : list request) :
  (get_json server self url params ≫= (fun v => lift (k v))) tr =
  ((get_json server self url params tr).1 ≫= k,
   tr ++ [request_of self url params]).
Proof.
  pose proof (get_json_trace server self url params tr) as Htr.
  unfold mbind at 1, io_bind.
  destruct (get_json server self url params tr) as [[v|e] tr'];
    cbn in Htr; subst tr'; reflexivity.
Qed.

(** ** [sorted] *)

Lemma compare_lt_trans (a b c : string) :
  String.compare a b = Lt → String.compare b c = Lt → String.compare a c = Lt.
Proof.
  revert b c. induction a as [|x a IH]; intros [|y b] [|z c]; cbn; try done.
  unfold Ascii.compare.
  destruct (N.compare_spec (N_of_ascii x) (N_of_ascii y)) as [E1|E1|E1];
  destruct (N.compare_spec (N_of_ascii y) (N_of_ascii z)) as [E2|E2|E2];
  try done.
  - rewrite E1, E2, N.compare_refl. apply IH.
  - intros _ _. rewrite E1. by apply N.compare_lt_iff in E2 as ->.
  - intros _ _. rewrite <- E2. by apply N.compare_lt_iff in E1 as ->.
  - intros _ _.
    assert (N_of_ascii x < N_of_ascii z)%N as H by lia.
    by apply N.compare_lt_iff in H as ->.
Qed.

Lemma ltb_asym (a b : string) : String.ltb a b = true → String.ltb b a = false.
Proof.
  unfold String.ltb. rewrite (String.compare_antisym b a).
  by destruct (String.compare a b).
Qed.

Lemma ltb_false_trans (a b c : string) :
  String.ltb b a = false → String.ltb c b = false → String.ltb c a = false.
Proof.
  unfold String.ltb. intros Hba Hcb.
  destruct (String.compare c a) eqn:Hca; try done. exfalso.
  destruct (String.compare c b) eqn:Ecb; try done;
  destruct (String.compare b a) eqn:Eba; try done.
  - apply String.compare_eq_iff in Ecb as ->. congruence.
  - apply String.compare_eq_iff in Ecb as ->. congruence.
  - apply String.compare_eq_iff in Eba as ->. congruence.
  - rewrite String.compare_antisym in Ecb, Eba.
    destruct (String.compare b c) eqn:Ebc; try done.
    destruct (String.compare a b) eqn:Eab; try done.
    pose proof (compare_lt_trans _ _ _ Eab Ebc) as Hac.
    rewrite String.compare_antisym, Hac in Hca. done.
Qed.

(** On numbers [py_le] is the order of the integers. *)
Lemma py_le_int (i j : Z) : py_le (JInt i) (JInt j) ↔ i ≤ j.
Proof.
  unfold py_le. cbn. split.
  - intros [= H]. lia.
  - intros H. f_equal. lia.
Qed.

(** On numbers and strings, [<] is asymmetric ... *)
Lemma in_order_scalar (a b : json) :
  scalar a → in_order a b → py_le a b.
Proof.
  intros Ha [H|H]; [|done]. unfold py_le.
  destruct a as [|x|x|s|?|?], b as [|y|y|t|?|?]; try done; cbn in *;
    injection H as H; f_equal; try lia.
  by apply ltb_asym.
Qed.

(** ... and [<=] is transitive. *)
Lemma py_le_trans (a b c : json) :
  scalar b → py_le a b → py_le b c → py_le a c.
Proof.
  unfold py_le. intros Hb Hab Hbc.
  destruct a as [|x|x|s|?|?], b as [|y|y|t|?|?]; try done; cbn in *;
  destruct c as [|z|z|u|?|?]; try done; cbn in *;
    injection Hab as Hab; injection Hbc as Hbc; f_equal; try lia.
  by apply (ltb_false_trans _ t).
Qed.

Section sorted_facts.

Context {A : Type} (key : A → json).

Lemma insert_by_Permutation x l l' :
  insert_by key x l = Ok l' → l' ≡ₚ x :: l.
Proof.
  revert l'. induction l as [|y l IH]; intros l' H; cbn in H.
  - by injection H as <-.
  - apply bind_Ok in H as (b & Hb & H). destruct b.
    + by injection H as <-.
    + inv_Ok. subst l'.
      match goal with Hl : insert_by _ _ l = Ok ?l2 |- _ =>
        rewrite (IH _ Hl) end.
      apply Permutation_swap.
Qed.

Lemma insert_by_HdRel a x l l' :
  insert_by key x l = Ok l' →
  in_order (key a) (key x) →
  HdRel (fun a b => in_order (key a) (key b)) a l →
  HdRel (fun a b => in_order (key a) (key b)) a l'.
Proof.
  intros H Hax Hal. destruct l as [|y l]; cbn in H.
  - injection H as <-. by constructor.
  - apply bind_Ok in H as (b & Hb & H). destruct b.
    + injection H as <-. by constructor.
    + inv_Ok. subst l'. constructor. by inversion Hal.
Qed.

Lemma insert_by_Sorted x l l' :
  insert_by key x l = Ok l' →
  Sorted (fun a b => in_order (key a) (key b)) l →
  Sorted (fun a b => in_order (key a) (key b)) l'.
Proof.
  revert l'. induction l as [|y l IH]; intros l' H Hs; cbn in H.
  - injection H as <-. by repeat constructor.
  - apply bind_Ok in H as (b & Hb & H).
    apply Sorted_inv in Hs as [Hs Hhd]. destruct b.
    + injection H as <-. constructor; [by constructor|].
      constructor. by left.
    + inv_Ok. subst l'.
      match goal with Hl : insert_by _ _ l = Ok ?l2 |- _ =>
        constructor; [by apply IH|];
        apply (insert_by_HdRel y x l l2 Hl); [by right | done] end.
Qed.

Lemma sorted_into_Ok acc l l' :
  sorted_into key acc l = Ok l' →
  Sorted (fun a b => in_order (key a) (key b)) acc →
  Sorted (fun a b => in_order (key a) (key b)) l' ∧ l' ≡ₚ acc ++ l.
Proof.
  revert acc. induction l as [|x l IH]; intros acc H Hs; cbn in H.
  - injection H as <-. by rewrite app_nil_r.
  - apply bind_Ok in H as (acc' & Hins & H).
    destruct (IH _ H (insert_by_Sorted _ _ _ Hins Hs)) as [? Hp].
    split; [done|].
    rewrite Hp, (insert_by_Permutation _ _ _ Hins).
    cbn. apply Permutation_middle.
Qed.

(** What [sorted] returns is a rearrangement of its argument in which
    every element is in order with the next. *)
Lemma sorted_Ok l l' :
  sorted key l = Ok l' →
  Sorted (fun a b => in_order (key a) (key b)) l' ∧ l' ≡ₚ l.
Proof.
  intros H. apply sorted_into_Ok in H; [done | constructor].
Qed.

(** With numbers or strings for keys, every element is below all the
    elements after it. *)
Lemma Sorted_scalar l :
  Forall (fun a => scalar (key a)) l →
  Sorted (fun a b => in_order (key a) (key b)) l →
  StronglySorted (fun a b => py_le (key a) (key b)) l.
Proof.
  induction l as [|a l IH]; intros Hsc Hs; [constructor|].
  apply Forall_cons in Hsc as [Ha Hsc].
  apply Sorted_inv in Hs as [Hs Hhd].
  specialize (IH Hsc Hs). constructor; [done|].
  destruct l as [|b l]; [constructor|].
  apply HdRel_inv in Hhd. apply in_order_scalar in Hhd; [|done].
  apply Forall_cons in Hsc as [Hb Hsc].
  apply StronglySorted_inv in IH as [_ Hbl].
  constructor; [done|].
  eapply Forall_impl; [exact Hbl|].
  intros c Hbc. by apply (py_le_trans _ (key b)).
Qed.

End sorted_facts.

Lemma get_json_accepted server self url params tr envelope :
  (get_json server self url params tr).1 = Ok envelope ↔
  accepted server (request_of self url params) envelope.
Proof. apply get_json_Ok. Qed.

(** ** What each operation returns *)

Section operations.

Context (server : request → result response).
Context (py_str : json → string).
Context (utc_offset : Z → Z).
Context (self : LibQuery).

Lemma get_library_list_Ok tr libs tr' :
  get_library_list server self tr = (Ok libs, tr') →
  ∃ envelope items,
    accepted server (list_request self) envelope ∧
    list_items envelope = Ok items ∧
    comprehension is_valid library_of items = Ok libs.
Proof.
  unfold get_library_list. rewrite fetch_then. intros [= H _].
  apply bind_Ok in H as (envelope & Hget & H).
  apply get_json_accepted in Hget. inv_Ok.
  eexists envelope, _. split; [done|]. split; [|done].
  unfold list_items. by repeat (erewrite bind_Ok; eexists; split; [done|]).
Qed.

Lemma get_library_floors_Ok library tr floors tr' :
  get_library_floors server py_str self library tr = (Ok floors, tr') →
  ∃ envelope items,
    accepted server (floors_request py_str self library) envelope ∧
    child_areas envelope = Ok items ∧
    comprehension is_valid (floor_of library) items = Ok floors.
Proof.
  unfold get_library_floors. rewrite fetch_then. intros [= H _].
  apply bind_Ok in H as (envelope & Hget & H).
  apply get_json_accepted in Hget. inv_Ok.
  eexists envelope, _. split; [done|]. split; [|done].
  unfold child_areas. by repeat (erewrite bind_Ok; eexists; split; [done|]).
Qed.

Lemma get_library_sections_Ok now floor day tr sections tr' :
  get_library_sections server py_str utc_offset self now floor day tr
    = (Ok sections, tr') →
  ∃ envelope items built,
    accepted server (sections_request py_str utc_offset self now floor day)
      envelope ∧
    child_areas envelope = Ok items ∧
    comprehension is_valid (section_of floor) items = Ok built ∧
    sorted LibrarySection.id built = Ok sections.
Proof.
  unfold get_library_sections. cbv zeta. rewrite fetch_then. intros [= H _].
  apply bind_Ok in H as (envelope & Hget & H).
  apply get_json_accepted in Hget. inv_Ok.
  eexists envelope, _, _. split; [done|]. split; [|done].
  unfold child_areas. by repeat (erewrite bind_Ok; eexists; split; [done|]).
Qed.

Lemma get_library_seats_Ok now section day tr seats tr' :
  get_library_seats server utc_offset self now section day tr
    = (Ok seats, tr') →
  ∃ envelope items,
    accepted server (seats_request utc_offset self now section day) envelope ∧
    list_items envelope = Ok items ∧
    comprehension no_filter (seat_of section) items = Ok seats.
Proof.
  unfold get_library_seats. rewrite fetch_then. intros [= H _].
  apply bind_Ok in H as (envelope & Hget & H).
  apply get_json_accepted in Hget. inv_Ok.
  eexists envelope, _. split; [done|]. split; [|done].
  unfold list_items. by repeat (erewrite bind_Ok; eexists; split; [done|]).
Qed.

End operations.

(** ** Claims C5, C6, C8 and C4: the listings *)

Lemma filter_no_filter (items : list json) :
  filter (passes no_filter) items = items.
Proof.
  induction items as [|x items IH]; [done|].
  rewrite filter_cons_True by done. by rewrite IH.
Qed.

(** The filter of the comprehensions is the condition of the
    specification: an entry passes exactly when its flag equals 1. *)
Lemma valid_flag_is_one (data : json) : valid data = flag_is_one data.
Proof.
  unfold valid, passes, is_valid, flag_is_one.
  destruct data as [| | | | |d]; try done. cbn.
  destruct (d !! "isValid") as [flag|]; [|done]. cbn.
  destruct flag as [|[]|[|[]|]| | |]; done.
Qed.

Lemma filter_valid (items : list json) :
  filter valid items = filter flag_is_one items.
Proof.
  induction items as [|data items IH]; [done|].
  rewrite !filter_cons, IH. by rewrite valid_flag_is_one.
Qed.

(** C5. Whatever the server answers, the libraries, floors and sections
    returned are built, one for one, from the entries of the payload
    whose [isValid] equals 1 and from no other entry, and the seats
    returned are built from all the entries of the payload, none being
    dropped. *)
Theorem validity_filters (server : request → result response)
    (py_str : json → string) (utc_offset : Z → Z) (self : LibQuery) :
  (∀ tr libs tr',
     get_library_list server self tr = (Ok libs, tr') →
     ∃ envelope items,
       accepted server (list_request self) envelope ∧
       list_items envelope = Ok items ∧
       Forall2 (fun data lib => library_of data = Ok lib)
         (filter flag_is_one items) libs) ∧
  (∀ library tr floors tr',
     get_library_floors server py_str self library tr = (Ok floors, tr') →
     ∃ envelope items,
       accepted server (floors_request py_str self library) envelope ∧
       child_areas envelope = Ok items ∧
       Forall2 (fun data floor => floor_of library data = Ok floor)
         (filter flag_is_one items) floors) ∧
  (∀ now floor day tr sections tr',
     get_library_sections server py_str utc_offset self now floor day tr
       = (Ok sections, tr') →
     ∃ envelope items built,
       accepted server
         (sections_request py_str utc_offset self now floor day) envelope ∧
       child_areas envelope = Ok items ∧
       Forall2 (fun data section => section_of floor data = Ok section)
         (filter flag_is_one items) built ∧
       sections ≡ₚ built) ∧
  (∀ now section day tr seats tr',
     get_library_seats server utc_offset self now section day tr
       = (Ok seats, tr') →
     ∃ envelope items,
       accepted server
         (seats_request utc_offset self now section day) envelope ∧
       list_items envelope = Ok items ∧
       Forall2 (fun data seat => seat_of section data = Ok seat) items seats).
Proof.
  repeat split.
  - intros tr libs tr' H.
    apply get_library_list_Ok in H as (envelope & items & Ha & Hi & Hc).
    apply comprehension_Ok in Hc as [Hc _].
    change (filter (passes is_valid) items) with (filter valid items) in Hc.
    rewrite filter_valid in Hc. by exists envelope, items.
  - intros library tr floors tr' H.
    apply get_library_floors_Ok in H as (envelope & items & Ha & Hi & Hc).
    apply comprehension_Ok in Hc as [Hc _].
    change (filter (passes is_valid) items) with (filter valid items) in Hc.
    rewrite filter_valid in Hc. by exists envelope, items.
  - intros now floor day tr sections tr' H.
    apply get_library_sections_Ok in H
      as (envelope & items & built & Ha & Hi & Hc & Hs).
    apply comprehension_Ok in Hc as [Hc _].
    change (filter (passes is_valid) items) with (filter valid items) in Hc.
    rewrite filter_valid in Hc.
    apply sorted_Ok in Hs as [_ Hp]. by exists envelope, items, built.
  - intros now section day tr seats tr' H.
    apply get_library_seats_Ok in H as (envelope & items & Ha & Hi & Hc).
    apply comprehension_Ok in Hc as [Hc _].
    rewrite filter_no_filter in Hc. by exists envelope, items.
Qed.

Lemma scenario_sections :
  get_library_sections (answering scenario) decimal beijing anonymous
    1704067199 first_floor Today []
  = (Ok [section_2; section_5],
     [sections_request decimal beijing anonymous 1704067199 first_floor Today]).
Proof. by vm_compute. Qed.

Lemma validity_filters_witness :
  ∃ envelope items built,
    accepted (answering mixed_flags)
      (sections_request decimal beijing anonymous 1704067199 first_floor Today)
      envelope ∧
    child_areas envelope = Ok items ∧
    Forall2 (fun data section => section_of first_floor data = Ok section)
      (filter flag_is_one items) built ∧
    [section_2; section_5] ≡ₚ built.
Proof.
  destruct (validity_filters (answering mixed_flags) decimal beijing anonymous)
    as (_ & _ & H & _).
  apply (H 1704067199 first_floor Today [] [section_2; section_5]
           [sections_request decimal beijing anonymous 1704067199
              first_floor Today]).
  vm_compute. reflexivity.
Defined.

Lemma py_sub_Ok (a b v : json) :
  py_sub a b = Ok v →
  ∃ x y, as_int a = Some x ∧ as_int b = Some y ∧ v = JInt (x - y).
Proof.
  unfold py_sub. destruct (as_int a) as [x|], (as_int b) as [y|]; try done.
  intros [= <-]. by exists x, y.
Qed.

(** What a section is built from. *)
Lemma section_of_Ok (floor : LibraryFloor.t) (data : json)
    (s : LibrarySection.t) :
  section_of floor data = Ok s →
  ∃ total unavailable t u,
    py_getitem data "TotalCount" = Ok total ∧
    py_getitem data "UnavailableSpace" = Ok unavailable ∧
    as_int total = Some t ∧ as_int unavailable = Some u ∧
    LibrarySection.total s = total ∧
    LibrarySection.available s = JInt (t - u).
Proof.
  unfold section_of. intros H. inv_Ok.
  match goal with Hs : py_sub _ _ = Ok _ |- _ =>
    apply py_sub_Ok in Hs as (t & u & Ht & Hu & ->) end.
  subst s. cbn. eexists _, _, t, u. repeat split; try done; congruence.
Qed.

Lemma Forall2_built {A B : Type} (P : A → B → Prop) (l : list A) (k : list B) :
  Forall2 P l k → Forall (fun x => ∃ data, data ∈ l ∧ P data x) k.
Proof.
  induction 1 as [|data x l k HP _ IH]; constructor.
  - exists data. split; [left | done].
  - eapply Forall_impl; [exact IH|].
    intros y (d & Hd & Hy). exists d. split; [by right | done].
Qed.

(** Every section returned was built from a valid entry of the
    payload. *)
Lemma sections_from_entries (server : request → result response)
    (py_str : json → string) (utc_offset : Z → Z) (self : LibQuery)
    now floor day tr sections tr' :
  get_library_sections server py_str utc_offset self now floor day tr
    = (Ok sections, tr') →
  ∃ envelope items,
    accepted server
      (sections_request py_str utc_offset self now floor day) envelope ∧
    child_areas envelope = Ok items ∧
    Forall (fun s => ∃ data, data ∈ items ∧ valid data ∧
                             section_of floor data = Ok s) sections.
Proof.
  intros H.
  apply get_library_sections_Ok in H
    as (envelope & items & built & Ha & Hi & Hc & Hs).
  apply comprehension_Ok in Hc as [Hc _].
  apply sorted_Ok in Hs as [_ Hp].
  exists envelope, items. split; [done|]. split; [done|].
  rewrite Hp. apply Forall2_built in Hc.
  eapply Forall_impl; [exact Hc|].
  intros s (data & Hin & Hb). exists data.
  apply list_elem_of_filter in Hin as [Hv Hin]. done.
Qed.

(** C8. The [available] field of every section returned is the
    [TotalCount] of the entry it was built from minus that entry's
    [UnavailableSpace], and its [total] field is that [TotalCount]. *)
Theorem section_available (server : request → result response)
    (py_str : json → string) (utc_offset : Z → Z) (self : LibQuery)
    now floor day tr sections tr' :
  get_library_sections server py_str utc_offset self now floor day tr
    = (Ok sections, tr') →
  ∃ envelope items,
    accepted server
      (sections_request py_str utc_offset self now floor day) envelope ∧
    child_areas envelope = Ok items ∧
    Forall (fun s =>
      ∃ data total unavailable t u,
        data ∈ items ∧ valid data ∧
        py_getitem data "TotalCount" = Ok total ∧
        py_getitem data "UnavailableSpace" = Ok unavailable ∧
        as_int total = Some t ∧ as_int unavailable = Some u ∧
        LibrarySection.total s = total ∧
        LibrarySection.available s = JInt (t - u)) sections.
Proof.
  intros H.
  apply sections_from_entries in H as (envelope & items & Ha & Hi & Hf).
  exists envelope, items. split; [done|]. split; [done|].
  eapply Forall_impl; [exact Hf|].
  intros s (data & Hin & Hv & Hb).
  apply section_of_Ok in Hb
    as (total & unavailable & t & u & Ht & Hu & Hti & Hui & Hst & Hsa).
  by exists data, total, unavailable, t, u.
Qed.

Lemma section_available_witness :
  ∃ envelope items,
    accepted (answering scenario)
      (sections_request decimal beijing anonymous 1704067199 first_floor Today)
      envelope ∧
    child_areas envelope = Ok items ∧
    Forall (fun s =>
      ∃ data total unavailable t u,
        data ∈ items ∧ valid data ∧
        py_getitem data "TotalCount" = Ok total ∧
        py_getitem data "UnavailableSpace" = Ok unavailable ∧
        as_int total = Some t ∧ as_int unavailable = Some u ∧
        LibrarySection.total s = total ∧
        LibrarySection.available s = JInt (t - u)) [section_2; section_5].
Proof.
  apply (section_available (answering scenario) decimal beijing anonymous
           1704067199 first_floor Today [] [section_2; section_5]
           [sections_request decimal beijing anonymous 1704067199
              first_floor Today]).
  vm_compute. reflexivity.
Defined.

(** C4, counterexample. An entry that reports more unavailable seats
    than seats yields a section with a negative [available]. *)
Lemma section_overbooked :
  (get_library_sections
     (answering (child_area_listing [section_entry 3 4 5 1]))
     decimal beijing anonymous 1704067199 first_floor Today []).1
  = Ok [LibrarySection.mk (JInt 3) (JStr "A") (JStr "A") (JInt 4) (JInt (-1))
          (JInt 1)] ∧
  ¬ seats_invariant
      (LibrarySection.mk (JInt 3) (JStr "A") (JStr "A") (JInt 4) (JInt (-1))
         (JInt 1)).
Proof.
  split; [by vm_compute|].
  intros (a & t & [= <-] & [= <-] & H). lia.
Qed.

(** C4, amended. When, in every entry of the payload whose [isValid]
    equals 1, [TotalCount] and [UnavailableSpace] are integers with
    [0 <= UnavailableSpace <= TotalCount], every section returned
    satisfies [0 <= available <= total]. *)
Theorem section_invariant (server : request → result response)
    (py_str : json → string) (utc_offset : Z → Z) (self : LibQuery)
    now floor day tr sections tr' envelope items :
  accepted server
    (sections_request py_str utc_offset self now floor day) envelope →
  child_areas envelope = Ok items →
  Forall (fun data =>
    flag_is_one data →
    ∃ t u : Z, count data "TotalCount" = Some t ∧
               count data "UnavailableSpace" = Some u ∧
               0 ≤ u ≤ t) items →
  get_library_sections server py_str utc_offset self now floor day tr
    = (Ok sections, tr') →
  Forall seats_invariant sections.
Proof.
  intros Ha Hi Hrange H.
  apply sections_from_entries in H as (envelope' & items' & Ha' & Hi' & Hf).
  assert (envelope' = envelope) as ->.
  { destruct Ha as (r & Hr & _ & Hb & _), Ha' as (r' & Hr' & _ & Hb' & _).
    congruence. }
  assert (items' = items) as -> by congruence.
  eapply Forall_impl; [exact Hf|].
  intros s (data & Hin & Hv & Hbuilt).
  apply section_of_Ok in Hbuilt
    as (total & unavailable & t & u & Ht & Hu & Hti & Hui & Hst & Hsa).
  rewrite Forall_forall in Hrange.
  rewrite valid_flag_is_one in Hv.
  destruct (Hrange data Hin Hv) as (t' & u' & Ht' & Hu' & Hle).
  unfold count in Ht', Hu'. rewrite Ht in Ht'. rewrite Hu in Hu'.
  assert (t' = t) as -> by congruence. assert (u' = u) as -> by congruence.
  exists (t - u), t. rewrite Hst, Hsa. cbn. repeat split; try done; lia.
Qed.

Lemma section_invariant_witness :
  Forall seats_invariant [section_2; section_5].
Proof.
  apply (section_invariant (answering scenario) decimal beijing anonymous
           1704067199 first_floor Today [] [section_2; section_5]
           [sections_request decimal beijing anonymous 1704067199
              first_floor Today]
           scenario
           [section_entry 5 10 3 1; section_entry 2 4 4 1;
            section_entry 7 9 0 0]).
  - eexists. split; [reflexivity|]. split; [reflexivity|].
    split; [reflexivity|]. exists (JInt 1). by vm_compute.
  - vm_compute. reflexivity.
  - rewrite !Forall_cons.
    split; [|split; [|split; [|done]]]; intros _; eexists _, _;
      (split; [vm_compute; reflexivity|]);
      (split; [vm_compute; reflexivity|]); lia.
  - vm_compute. reflexivity.
Defined.

(** C6. The sections are returned in ascending order of their
    identifiers: each one is in order with the next and, the
    identifiers being numbers (or strings), each one is below all
    those that follow it. *)
Theorem get_library_sections_sorted (server : request → result response)
    (py_str : json → string) (utc_offset : Z → Z) (self : LibQuery)
    now floor day tr sections tr' :
  get_library_sections server py_str utc_offset self now floor day tr
    = (Ok sections, tr') →
  Sorted (fun s1 s2 =>
            in_order (LibrarySection.id s1) (LibrarySection.id s2)) sections ∧
  (Forall (fun s => scalar (LibrarySection.id s)) sections →
   StronglySorted (fun s1 s2 =>
                     py_le (LibrarySection.id s1) (LibrarySection.id s2))
     sections).
Proof.
  intros H.
  apply get_library_sections_Ok in H
    as (envelope & items & built & _ & _ & _ & Hs).
  apply sorted_Ok in Hs as [Hs _]. split; [done|].
  intros Hsc. by apply Sorted_scalar.
Qed.

Lemma get_library_sections_sorted_witness :
  StronglySorted (fun s1 s2 =>
                    py_le (LibrarySection.id s1) (LibrarySection.id s2))
    [section_2; section_5].
Proof.
  apply (get_library_sections_sorted (answering scenario) decimal beijing
           anonymous 1704067199 first_floor Today [] [section_2; section_5]
           [sections_request decimal beijing anonymous 1704067199
              first_floor Today]).
  - vm_compute. reflexivity.
  - repeat constructor.
Defined.

(** ** Claim C7: the seat query *)

Lemma append_empty (s : string) : s +:+ "" = s.
Proof.
  induction s as [|c s IH]; [done|].
  change (String c (s +:+ "") = String c s). by rewrite IH.
Qed.

Lemma strftime_hh_mm (utc_offset : Z → Z) (now : Z) :
  strftime "%H:%M" (localtime utc_offset now) = wall_clock_minutes utc_offset now.
Proof.
  unfold wall_clock_minutes, localtime.
  destruct (civil_from_days _) as [[y m] d].
  cbn -[pad2 Z.div Z.modulo]. by rewrite append_empty.
Qed.

(** C7. [get_library_seats] sends exactly one request, to the seats
    URL; its start time is the wall-clock time truncated to minutes
    when the day-segment is tagged today and the day-segment's own
    opening time when it is tagged tomorrow; its end time is the
    day-segment's closing time. *)
Theorem seats_query (server : request → result response) (utc_offset : Z → Z)
    (self : LibQuery) (now : Z) (section : LibrarySection.t)
    (day : LibraryDay.t) (tr : list request) :
  (get_library_seats server utc_offset self now section day tr).2
    = tr ++ [seats_request utc_offset self now section day] ∧
  req_url (seats_request utc_offset self now section day) = LIBRARY_SEATS_URL ∧
  ∃ params,
    req_params (seats_request utc_offset self now section day) = Some params ∧
    params !! "startTime" =
      Some (match LibraryDay.day day with
            | Today => JStr (wall_clock_minutes utc_offset now)
            | Tomorrow => LibraryDay.startTime day
            end) ∧
    params !! "endTime" = Some (LibraryDay.endTime day) ∧
    params !! "area" = Some (LibrarySection.id section) ∧
    params !! "segment" = Some (LibraryDay.id day) ∧
    params !! "day" = Some (LibraryDay.date day).
Proof.
  split; [|split; [done|]].
  - unfold get_library_seats. by rewrite fetch_then.
  - eexists. split; [done|].
    unfold seats_params. cbv zeta. rewrite strftime_hh_mm.
    repeat split; simplify_map_eq; try done.
    by destruct (LibraryDay.day day).
Qed.

(** ** Claim C9: seat status codes *)

(** What a seat is built from. *)
Lemma seat_of_Ok (section : LibrarySection.t) (data : json)
    (seat : LibrarySeat.t) :
  seat_of section data = Ok seat →
  py_getitem data "status" = Ok (LibrarySeat.status seat).
Proof. unfold seat_of. intros H. inv_Ok. by subst seat. Qed.

(** C9. The table labels the codes 1, 4, 6 and 7 (free, under
    maintenance, in use, temporarily away) and no other code; the
    seats are built without consulting it, so that a seat carries the
    status code of its entry unchanged, whatever the code is, and
    building it does not raise. *)
Theorem status_passthrough :
  status_dict !! 1 = Some "空闲" ∧
  status_dict !! 4 = Some "维护" ∧
  status_dict !! 6 = Some "使用中" ∧
  status_dict !! 7 = Some "临时离开" ∧
  (∀ code : Z, code ∉ [1; 4; 6; 7] → status_dict !! code = None) ∧
  (∀ section data id name type code,
     py_getitem data "id" = Ok id →
     py_getitem data "name" = Ok name →
     py_getitem data "area_type" = Ok type →
     py_getitem data "status" = Ok code →
     seat_of section data
       = Ok (LibrarySeat.mk id name type code (LibrarySection.id section))) ∧
  (∀ server utc_offset self now section day tr seats tr',
     get_library_seats server utc_offset self now section day tr
       = (Ok seats, tr') →
     ∃ envelope items,
       accepted server
         (seats_request utc_offset self now section day) envelope ∧
       list_items envelope = Ok items ∧
       Forall2 (fun data seat =>
                  py_getitem data "status" = Ok (LibrarySeat.status seat))
         items seats).
Proof.
  split; [done|]. split; [done|]. split; [done|]. split; [done|].
  split; [|split].
  - intros code Hcode. unfold status_dict.
    rewrite !not_elem_of_cons in Hcode.
    destruct Hcode as (? & ? & ? & ? & _).
    by simplify_map_eq.
  - intros section data id name type code Hid Hname Htype Hcode.
    unfold seat_of. by rewrite Hid, Hname, Htype, Hcode.
  - intros server utc_offset self now section day tr seats tr' H.
    apply get_library_seats_Ok in H as (envelope & items & Ha & Hi & Hc).
    apply comprehension_Ok in Hc as [Hc _].
    rewrite filter_no_filter in Hc.
    exists envelope, items. split; [done|]. split; [done|].
    eapply Forall2_impl; [exact Hc|].
    intros data seat. apply seat_of_Ok.
Qed.

Lemma status_passthrough_witness :
  status_dict !! 9 = None ∧
  seat_of section_2 (seat_entry 1 9)
    = Ok (LibrarySeat.mk (JInt 1) (JStr "001") (JInt 1) (JInt 9) (JInt 2)).
Proof.
  destruct status_passthrough as (_ & _ & _ & _ & Hnone & Hseat & _).
  split.
  - apply Hnone. rewrite !not_elem_of_cons. repeat split; try done.
    apply not_elem_of_nil.
  - apply Hseat; by vm_compute.
Defined.

(** ** Claim C2: the day-segment of a date *)

Lemma list_items_bind {A : Type} (envelope : json) (k : list json → result A) :
  (data ← py_getitem envelope "data";
   data_list ← py_getitem data "list";
   items ← py_iter data_list;
   k items) = list_items envelope ≫= k.
Proof.
  unfold list_items.
  destruct (py_getitem envelope "data") as [data|]; [cbn|done].
  destruct (py_getitem data "list") as [data_list|]; [cbn|done].
  by destruct (py_iter data_list).
Qed.

(** What [get_library_day] does with the entries that pass its
    filter, when the filter can be evaluated on every entry and the
    entries that pass can be built. *)
Lemma get_library_day_by_filter (server : request → result response)
    (py_str : json → string) (utc_offset : Z → Z) (self : LibQuery)
    (now : Z) (section : LibrarySection.t) (day : Day) (tr : list request)
    (envelope : json) (items : list json) :
  accepted server (day_request py_str self section) envelope →
  list_items envelope = Ok items →
  Forall (fun data => ∃ b, is_day (resolve_date utc_offset now day) data = Ok b)
    items →
  Forall (fun data => ∃ x, day_of day data = Ok x)
    (filter (on_date (resolve_date utc_offset now day)) items) →
  let matching := filter (on_date (resolve_date utc_offset now day)) items in
  let outcome :=
    (get_library_day server py_str utc_offset self now section day tr).1 in
  (length matching ≠ 1%nat → outcome = Raise AssertionError) ∧
  (∀ data, matching = [data] → outcome = day_of day data) ∧
  (∀ x, outcome = Ok x → ∃ data, matching = [data] ∧ day_of day data = Ok x).
Proof.
  intros Ha Hi Hk Hb. cbv zeta.
  set (date := resolve_date utc_offset now day) in *.
  set (matching := filter (on_date date) items) in *.
  assert ((get_library_day server py_str utc_offset self now section day tr).1
          = the_day ← comprehension (is_day date) (day_of day) items;
            _ ← py_assert (bool_decide (length the_day = 1%nat));
            match the_day with
            | x :: _ => Ok x
            | [] => Raise IndexError
            end) as ->.
  { unfold get_library_day. cbv zeta. rewrite fetch_then. cbn [fst].
    unfold day_request in Ha.
    apply (get_json_accepted server self _ _ tr) in Ha. rewrite Ha. cbn.
    fold date. by rewrite list_items_bind, Hi. }
  destruct (comprehension_total _ _ _ Hk Hb) as [the_day Hc].
  rewrite Hc. cbn.
  apply comprehension_Ok in Hc as [Hc _].
  change (filter (passes (is_day date)) items) with matching in Hc.
  pose proof (Forall2_length _ _ _ Hc) as Hlen.
  assert (∀ data, matching = [data] → ∃ x, the_day = [x] ∧ day_of day data = Ok x)
    as Hone.
  { intros data E. rewrite E in Hc.
    apply Forall2_cons_inv_l in Hc as (x & l & Hx & Hl & ->).
    apply Forall2_nil_inv_l in Hl as ->. by exists x. }
  split; [|split].
  - intros Hne. rewrite bool_decide_false by congruence. done.
  - intros data E. destruct (Hone data E) as (x & -> & Hx).
    rewrite bool_decide_true by done. by rewrite Hx.
  - intros x Hx.
    destruct (decide (length the_day = 1%nat)) as [E|E].
    + destruct matching as [|data [|? ?]] eqn:Em; cbn in Hlen; try lia.
      exists data. split; [done|].
      destruct (Hone data eq_refl) as (x' & -> & Hx').
      rewrite bool_decide_true in Hx by done. cbn in Hx. congruence.
    + rewrite bool_decide_false in Hx by done. done.
Qed.

(** On an entry with a [day] member, the condition of the comprehension
    is the condition of the specification. *)
Lemma is_day_dated (date : string) (data : json) :
  has_day data → is_day date data = Ok (dated date data).
Proof.
  intros (d & v & -> & Hv). unfold is_day, dated. cbn. rewrite Hv. cbn.
  by destruct v.
Qed.

Lemma filter_on_date (date : string) (items : list json) :
  Forall has_day items →
  filter (on_date date) items = filter (dated date) items.
Proof.
  induction 1 as [|data items Hd _ IH]; [done|].
  assert (on_date date data = dated date data) as E.
  { unfold on_date, passes. rewrite (is_day_dated date data Hd).
    by destruct (dated date data). }
  rewrite !filter_cons, IH. by rewrite E.
Qed.

Lemma dated_day (date : string) (data : json) :
  dated date data → ∃ d, data = JDict d ∧ d !! "day" = Some (JStr date).
Proof.
  unfold dated. destruct data as [| | | | |d]; try done.
  destruct (d !! "day") as [[| | |s| |]|] eqn:E; try done.
  intros H. apply Is_true_true, String.eqb_eq in H as ->. by exists d.
Qed.

(** The day-segment built from an entry of the given date. *)
Lemma day_of_fields (day : Day) (date : string) (data id : json)
    (s e : string) :
  dated date data → segment_fields data id s e →
  day_of day data =
  Ok (LibraryDay.mk id (JStr date) (JStr (String.substring 11 5 s))
        (JStr (String.substring 11 5 e)) day).
Proof.
  intros (d & -> & Hday)%dated_day (d' & ds & de & [= <-] & Hid & Hs & Hds
                                    & He & Hde).
  unfold day_of. cbn. rewrite Hid, Hday, Hs, He. cbn. by rewrite Hds, Hde.
Qed.

(** C2, counterexample. With two entries of the requested date that
    lack the members of a day-segment, and with no entry of the
    requested date among entries that have no [day] member, the call
    raises [KeyError], not the [AssertionError] of the cardinality
    check. *)
Lemma get_library_day_key_error :
  resolve_date beijing 1704067199 Today = "2024-01-01" ∧
  length (filter (dated "2024-01-01") [bare_day; bare_day]) = 2%nat ∧
  (get_library_day (answering bare_days_listing) decimal beijing anonymous
     1704067199 section_2 Today []).1 = Raise KeyError ∧
  length (filter (dated "2024-01-01") [JDict {[ "id" := JInt 11 ]}]) = 0%nat ∧
  (get_library_day (answering undated_listing) decimal beijing anonymous
     1704067199 section_2 Today []).1 = Raise KeyError.
Proof. repeat split; by vm_compute. Qed.

(** C2, amended. Let the server accept the request with a list of
    entries that all have a [day] member, those whose [day] equals the
    resolved date having an identifier and two timestamps with string
    [date] members. Then [get_library_day] raises an [AssertionError]
    when the number of entries whose [day] equals the resolved date is
    not one; when there is exactly one, it returns the day-segment of
    that entry: its identifier, the resolved date, the characters 11 to
    15 of its two timestamps and the day tag of the call. It returns in
    no other case. *)
Theorem get_library_day_unique (server : request → result response)
    (py_str : json → string) (utc_offset : Z → Z) (self : LibQuery)
    (now : Z) (section : LibrarySection.t) (day : Day) (tr : list request)
    (envelope : json) (items : list json) :
  let date := resolve_date utc_offset now day in
  accepted server (day_request py_str self section) envelope →
  list_items envelope = Ok items →
  Forall has_day items →
  Forall (fun data => dated date data → ∃ id s e, segment_fields data id s e)
    items →
  let outcome :=
    (get_library_day server py_str utc_offset self now section day tr).1 in
  (length (filter (dated date) items) ≠ 1%nat →
   outcome = Raise AssertionError) ∧
  (∀ data id s e,
     filter (dated date) items = [data] → segment_fields data id s e →
     outcome = Ok (LibraryDay.mk id (JStr date)
                     (JStr (String.substring 11 5 s))
                     (JStr (String.substring 11 5 e)) day)) ∧
  (∀ x, outcome = Ok x →
     ∃ data id s e,
       filter (dated date) items = [data] ∧ segment_fields data id s e ∧
       x = LibraryDay.mk id (JStr date) (JStr (String.substring 11 5 s))
             (JStr (String.substring 11 5 e)) day).
Proof.
  intros date Ha Hi Hday Hshape. cbv zeta.
  assert (∀ data, data ∈ filter (dated date) items → dated date data) as Hin.
  { intros data Hd. by apply list_elem_of_filter in Hd as [? _]. }
  destruct (get_library_day_by_filter server py_str utc_offset self now section
              day tr envelope items Ha Hi) as (H1 & H2 & H3).
  { eapply Forall_impl; [exact Hday|]. intros data Hd.
    exists (dated date data). by apply is_day_dated. }
  { fold date. rewrite (filter_on_date date items Hday).
    apply Forall_forall. intros data Hd.
    pose proof (Hin data Hd) as Hdated.
    apply list_elem_of_filter in Hd as [_ Hd].
    rewrite Forall_forall in Hshape.
    destruct (Hshape data Hd Hdated) as (id & s & e & Hf).
    eexists. by apply (day_of_fields day date data id s e). }
  fold date in H1, H2, H3.
  rewrite (filter_on_date date items Hday) in H1, H2, H3.
  split; [exact H1|]. split.
  - intros data id s e Hf Hfields. rewrite (H2 data Hf).
    apply day_of_fields; [|done]. apply Hin. rewrite Hf. left.
  - intros x Hx. destruct (H3 x Hx) as (data & Hf & Hbuilt).
    assert (dated date data) as Hdated by (apply Hin; rewrite Hf; left).
    assert (data ∈ items) as Hd.
    { assert (data ∈ filter (dated date) items) as Hd by (rewrite Hf; left).
      by apply list_elem_of_filter in Hd as [_ ?]. }
    rewrite Forall_forall in Hshape.
    destruct (Hshape data Hd Hdated) as (id & s & e & Hfields).
    exists data, id, s, e. split; [done|]. split; [done|].
    rewrite (day_of_fields day date data id s e Hdated Hfields) in Hbuilt.
    congruence.
Qed.

Lemma get_library_day_unique_witness :
  (get_library_day (answering days_listing) decimal beijing anonymous
     1704067199 section_2 Today []).1
  = Ok (LibraryDay.mk (JInt 11) (JStr "2024-01-01") (JStr "08:00")
          (JStr "22:00") Today).
Proof.
  assert (segment_fields new_year (JInt 11) "2024-01-01 08:00:00.000000"
            "2024-01-01 22:00:00.000000") as Hfields.
  { do 3 eexists. split; [reflexivity|]. repeat split; by vm_compute. }
  destruct (get_library_day_unique (answering days_listing) decimal beijing
              anonymous 1704067199 section_2 Today [] days_listing
              [new_year; second_of_january]) as (_ & H & _).
  - eexists. split; [reflexivity|]. split; [reflexivity|].
    split; [reflexivity|]. exists (JInt 1). by vm_compute.
  - vm_compute. reflexivity.
  - rewrite !Forall_cons.
    split; [|split; [|done]];
      (do 2 eexists; split; [reflexivity|]; by vm_compute).
  - rewrite !Forall_cons. split; [|split; [|done]].
    + intros _. by exists (JInt 11), "2024-01-01 08:00:00.000000",
        "2024-01-01 22:00:00.000000".
    + intros Hd. by vm_compute in Hd.
  - rewrite (H new_year (JInt 11) "2024-01-01 08:00:00.000000"
               "2024-01-01 22:00:00.000000"); [|by vm_compute|exact Hfields].
    by vm_compute.
Defined.

(** ** Claim C10: the browser is released *)

Lemma proc_bind_Some {A B : Type} (c : proc A) (f : A → proc B) m r m' :
  (c ≫= f) m = (Some r, m') →
  (∃ e, c m = (Some (Raise e), m') ∧ r = Raise e) ∨
  (∃ a m1, c m = (Some (Ok a), m1) ∧ f a m1 = (Some r, m')).
Proof.
  unfold mbind, proc_bind.
  destruct (c m) as [[[a|e]|] m1]; intros H.
  - right. by exists a, m1.
  - left. exists e. by injection H as <- <-.
  - done.
Qed.

Lemma print_running (line : string) m o m' :
  print line m = (o, m') → browser_running m' = browser_running m.
Proof. unfold print. by intros [= _ <-]. Qed.

(** A [try] whose [finally] clause starts with [driver.quit()] never
    completes with the browser running. *)
Lemma try_finally_quit {A : Type} (w : world) (body : proc A)
    (rest : proc unit) m r m' :
  (∀ m1 o m2, rest m1 = (o, m2) → browser_running m2 = browser_running m1) →
  try_finally body (_ ← quit w; rest) m = (Some r, m') →
  browser_running m' = false.
Proof.
  intros Hrest. unfold try_finally.
  destruct (body m) as [[rb|] m1]; [|done].
  unfold mbind, proc_bind, quit.
  destruct (on_quit w) as [[]|e].
  - destruct (rest _) as [[[u|e]|] m2] eqn:Er; intros [= _ <-];
      by rewrite (Hrest _ _ _ Er).
  - by intros [= _ <-].
Qed.

(** C10. From a machine on which the browser is not running, each of
    the two login routines, when it completes, by returning or by
    raising, leaves the browser not running. *)
Theorem login_releases_browser (w : world) (m : machine) :
  browser_running m = false →
  (∀ fuel username password r m',
     webvpn_login w fuel username password m = (Some r, m') →
     browser_running m' = false) ∧
  (∀ r m',
     webvpn_login_manual w m = (Some r, m') →
     browser_running m' = false).
Proof.
  intros Hm. split.
  - intros fuel username password r m' H. unfold webvpn_login in H.
    apply proc_bind_Some in H as [(e & H & _)|([] & m1 & _ & H)].
    + unfold Chrome in H. destruct (on_Chrome w); by simplify_eq.
    + apply proc_bind_Some in H as [(e & H & _)|([s h] & m2 & H & Hret)].
      * eapply try_finally_quit; [|exact H]. apply print_running.
      * injection Hret as _ <-.
        eapply try_finally_quit; [|exact H]. apply print_running.
  - intros r m' H. unfold webvpn_login_manual in H.
    apply proc_bind_Some in H as [(e & H & _)|([] & m1 & _ & H)].
    + unfold Chrome in H. destruct (on_Chrome w); by simplify_eq.
    + apply proc_bind_Some in H as [(e & H & _)|([s h] & m2 & H & Hret)].
      * eapply try_finally_quit; [|exact H]. apply print_running.
      * injection Hret as _ <-.
        eapply try_finally_quit; [|exact H]. apply print_running.
Qed.

Lemma login_releases_browser_witness :
  browser_running (webvpn_login broken_login 3 "user" "secret" boot).2 = false ∧
  browser_running (webvpn_login smooth_login 3 "user" "secret" boot).2 = false.
Proof.
  split.
  - apply (proj1 (login_releases_browser broken_login boot eq_refl)
             3%nat "user" "secret" (Raise WebDriverException)).
    vm_compute. reflexivity.
  - apply (proj1 (login_releases_browser smooth_login boot eq_refl)
             3%nat "user" "secret"
             (Ok (mk_LibQuery
                    (mk_Session
                       {[ ("webvpn.tsinghua.edu.cn", "/", "wengine_vpn_ticket")
                          := "0123" ]})
                    {[ "User-Agent" := "Mozilla/5.0" ]}))).
    vm_compute. reflexivity.
Defined.

(** The polling loop ends, given enough fuel, as soon as one reading of
    the address bar raises or shows the tunnel. *)
Lemma poll_completes (w : world) (fuel i : nat) (m : machine) :
  (∃ n, (n < fuel)%nat ∧
        ∀ url, on_current_url w (i + n) = Ok url →
               py_in "webvpn.tsinghua.edu.cn" url = true) →
  ∃ r, poll w fuel i m = (Some r, m).
Proof.
  revert i. induction fuel as [|fuel IH]; intros i (n & Hn & Hend); [lia|].
  cbn [poll]. unfold mbind, proc_bind, call, mret, proc_ret.
  destruct (on_current_url w i) as [url|e] eqn:Eurl; [|by eexists].
  destruct (py_in "webvpn.tsinghua.edu.cn" url) eqn:Ein; [by eexists|].
  destruct (on_sleep w i) as [[]|e]; [|by eexists].
  destruct n as [|n].
  { rewrite Nat.add_0_r in Hend. rewrite (Hend url Eurl) in Ein. done. }
  apply IH. exists n. split; [lia|].
  intros url'. replace (S i + n)%nat with (i + S n)%nat by lia. apply Hend.
Qed.

(** Hence the automatic login completes under the same condition, and
    the manual login always does. *)
Lemma webvpn_login_completes (w : world) (fuel : nat)
    (username password : string) (m : machine) :
  (∃ n, (n < fuel)%nat ∧
        ∀ url, on_current_url w n = Ok url →
               py_in "webvpn.tsinghua.edu.cn" url = true) →
  ∃ r m', webvpn_login w fuel username password m = (Some r, m').
Proof.
  intros Hend.
  assert (∀ m0, ∃ r, poll w fuel 0 m0 = (Some r, m0)) as Hpoll.
  { intros m0. by apply poll_completes. }
  unfold webvpn_login, try_finally, try_except, Chrome, quit, extract, call,
    print, mbind, proc_bind, mret, proc_ret.
  repeat (case_match; simplify_eq); try (by eexists _, _).
  all: match goal with
       | H : poll _ _ _ ?m0 = (None, _) |- _ =>
           destruct (Hpoll m0) as [r Hr]; rewrite Hr in H; discriminate H
       end.
Qed.

Lemma webvpn_login_manual_completes (w : world) (m : machine) :
  ∃ r m', webvpn_login_manual w m = (Some r, m').
Proof.
  unfold webvpn_login_manual, try_finally, Chrome, quit, extract, call,
    print, mbind, proc_bind, mret, proc_ret.
  repeat (case_match; simplify_eq/=); by eexists _, _.
Qed.

(** * Further properties *)

(** ** Further properties: [get_json] *)

(** The result of [get_json] does not depend on the requests sent
    before. *)
Lemma get_json_result server self url params tr :
  (get_json server self url params tr).1 = (get_json server self url params []).1.
Proof.
  unfold get_json, session_get, mbind, io_bind, lift, mret, io_ret.
  repeat (case_match; simplify_eq/=); done.
Qed.

(** X1. Which exception [get_json] raises: the one [session.get] raised;
    [JSONDecodeError] for a body that does not decode; [KeyError] for an
    envelope without a [status] member; [TypeError] for a decoded body
    that is not an object. *)
Theorem get_json_errors (server : request → result response)
    (self : LibQuery) (url : string) (params : option (gmap string json))
    (tr : list request) :
  let outcome := (get_json server self url params tr).1 in
  (∀ e, server (request_of self url params) = Raise e → outcome = Raise e) ∧
  (∀ resp, server (request_of self url params) = Ok resp →
     status_code resp = 200 → body resp = None →
     outcome = Raise JSONDecodeError) ∧
  (∀ resp d, server (request_of self url params) = Ok resp →
     status_code resp = 200 → body resp = Some (JDict d) →
     d !! "status" = None →
     outcome = Raise KeyError) ∧
  (∀ resp v, server (request_of self url params) = Ok resp →
     status_code resp = 200 → body resp = Some v →
     (∀ d, v ≠ JDict d) →
     outcome = Raise TypeError).
Proof.
  cbv zeta.
  unfold get_json, session_get, mbind, io_bind, lift, response_json_of, py_assert.
  fold (request_of self url params).
  repeat split.
  - by intros e ->.
  - intros resp -> Hs Hb. by rewrite Hs, Hb.
  - intros resp d -> Hs Hb Hd. rewrite Hs, Hb. cbn. by rewrite Hd.
  - intros resp v -> Hs Hb Hv. rewrite Hs, Hb. cbn.
    destruct v; try done. by destruct (Hv d).
Qed.

Lemma get_json_errors_witness :
  (get_json (fun _ => Ok (mk_response 200 (Some (JList []))))
     anonymous LIBRARY_LIST_URL None []).1 = Raise TypeError.
Proof.
  apply (get_json_errors (fun _ => Ok (mk_response 200 (Some (JList []))))
           anonymous LIBRARY_LIST_URL None []
         ) with (resp := mk_response 200 (Some (JList []))) (v := JList []);
    done.
Defined.

(** ** Further properties: the operations *)

(** X2. Each of the four listing operations sends exactly one request,
    whatever its outcome: to the URL of the operation, without
    parameters, with the session and the headers of the [LibQuery],
    redirects allowed. *)
Theorem one_request_each (server : request → result response)
    (py_str : json → string) (utc_offset : Z → Z) (self : LibQuery)
    (tr : list request) :
  (get_library_list server self tr).2 = tr ++ [list_request self] ∧
  (∀ library,
     (get_library_floors server py_str self library tr).2
       = tr ++ [floors_request py_str self library]) ∧
  (∀ now floor day,
     (get_library_sections server py_str utc_offset self now floor day tr).2
       = tr ++ [sections_request py_str utc_offset self now floor day]) ∧
  (∀ now section day,
     (get_library_day server py_str utc_offset self now section day tr).2
       = tr ++ [day_request py_str self section]) ∧
  (∀ url params,
     request_of self url params
       = mk_request (session self) url (headers self) true params) ∧
  req_url (list_request self) = LIBRARY_LIST_URL ∧
  (∀ library,
     req_url (floors_request py_str self library)
       = LIBRARY_AREAS_URL +:+ py_str (Library.id library)) ∧
  (∀ now floor day,
     req_url (sections_request py_str utc_offset self now floor day)
       = LIBRARY_AREAS_URL +:+ py_str (LibraryFloor.id floor) +:+ "/date/"
           +:+ resolve_date utc_offset now day) ∧
  (∀ section,
     req_url (day_request py_str self section)
       = LIBRARY_DAYS_URL +:+ py_str (LibrarySection.id section)).
Proof.
  split; [|split; [|split; [|split]]]; [| | | |done].
  - unfold get_library_list. by rewrite fetch_then.
  - intros library. unfold get_library_floors. by rewrite fetch_then.
  - intros now floor day. unfold get_library_sections. cbv zeta.
    by rewrite fetch_then.
  - intros now section day. unfold get_library_day. cbv zeta.
    by rewrite fetch_then.
Qed.

(** What [get_library_day] returns. *)
Lemma get_library_day_Ok (server : request → result response)
    (py_str : json → string) (utc_offset : Z → Z) (self : LibQuery)
    now section day tr x tr' :
  get_library_day server py_str utc_offset self now section day tr
    = (Ok x, tr') →
  ∃ envelope items data,
    accepted server (day_request py_str self section) envelope ∧
    list_items envelope = Ok items ∧
    filter (on_date (resolve_date utc_offset now day)) items = [data] ∧
    day_of day data = Ok x.
Proof.
  unfold get_library_day. cbv zeta. rewrite fetch_then. intros [= H _].
  apply bind_Ok in H as (envelope & Hget & H).
  apply get_json_accepted in Hget. rewrite list_items_bind in H.
  apply bind_Ok in H as (items & Hi & H).
  apply bind_Ok in H as (the_day & Hc & H).
  apply bind_Ok in H as ([] & Hlen & H).
  apply py_assert_Ok, bool_decide_eq_true in Hlen.
  apply comprehension_Ok in Hc as [Hc _].
  destruct the_day as [|x' [|? ?]]; try done. injection H as ->.
  apply Forall2_cons_inv_r in Hc as (data & l & Hx & Hl & E).
  apply Forall2_nil_inv_r in Hl as ->.
  by exists envelope, items, data.
Qed.

Lemma Forall2_Forall_r {A B : Type} (P : A → B → Prop) (Q : B → Prop)
    (l : list A) (k : list B) :
  Forall2 P l k → (∀ a b, P a b → Q b) → Forall Q k.
Proof. induction 1; intros HPQ; constructor; eauto. Qed.

(** X3. The children point to the parent they were asked for: every
    floor returned carries the identifier of the library, every section
    that of the floor, every seat that of the section, and the
    day-segment carries the day tag of the call. *)
Theorem children_point_to_parent (server : request → result response)
    (py_str : json → string) (utc_offset : Z → Z) (self : LibQuery) :
  (∀ library tr floors tr',
     get_library_floors server py_str self library tr = (Ok floors, tr') →
     Forall (fun f => LibraryFloor.parent f = Library.id library) floors) ∧
  (∀ now floor day tr sections tr',
     get_library_sections server py_str utc_offset self now floor day tr
       = (Ok sections, tr') →
     Forall (fun s => LibrarySection.parent s = LibraryFloor.id floor)
       sections) ∧
  (∀ now section day tr seats tr',
     get_library_seats server utc_offset self now section day tr
       = (Ok seats, tr') →
     Forall (fun s => LibrarySeat.parent s = LibrarySection.id section)
       seats) ∧
  (∀ now section day tr x tr',
     get_library_day server py_str utc_offset self now section day tr
       = (Ok x, tr') →
     LibraryDay.day x = day).
Proof.
  repeat split.
  - intros library tr floors tr' H.
    apply get_library_floors_Ok in H as (? & items & _ & _ & Hc).
    apply comprehension_Ok in Hc as [Hc _].
    eapply Forall2_Forall_r; [exact Hc|].
    intros data f Hf. unfold floor_of in Hf. inv_Ok. by subst f.
  - intros now floor day tr sections tr' H.
    apply get_library_sections_Ok in H as (? & items & built & _ & _ & Hc & Hs).
    apply comprehension_Ok in Hc as [Hc _].
    apply sorted_Ok in Hs as [_ ->].
    eapply Forall2_Forall_r; [exact Hc|].
    intros data s Hs. unfold section_of in Hs. inv_Ok. by subst s.
  - intros now section day tr seats tr' H.
    apply get_library_seats_Ok in H as (? & items & _ & _ & Hc).
    apply comprehension_Ok in Hc as [Hc _].
    eapply Forall2_Forall_r; [exact Hc|].
    intros data s Hs. unfold seat_of in Hs. inv_Ok. by subst s.
  - intros now section day tr x tr' H.
    apply get_library_day_Ok in H as (? & ? & data & _ & _ & _ & Hd).
    unfold day_of in Hd. inv_Ok. by subst x.
Qed.

Lemma children_point_to_parent_witness :
  Forall (fun s => LibrarySection.parent s = LibraryFloor.id first_floor)
    [section_2; section_5].
Proof.
  destruct (children_point_to_parent (answering scenario) decimal beijing
              anonymous) as (_ & H & _).
  apply (H 1704067199 first_floor Today [] [section_2; section_5]
           [sections_request decimal beijing anonymous 1704067199
              first_floor Today]).
  vm_compute. reflexivity.
Defined.

Lemma py_eq_str (v : json) (s : string) : py_eq v (JStr s) = true → v = JStr s.
Proof.
  destruct v; try done. cbn. intros H. by apply String.eqb_eq in H as ->.
Qed.

(** X4. The day-segment returned by [get_library_day] is one of the
    requested date: its [date] field is the date string the call
    resolved, and the server had exactly one entry of that date. *)
Theorem day_segment_date (server : request → result response)
    (py_str : json → string) (utc_offset : Z → Z) (self : LibQuery)
    now section day tr x tr' :
  get_library_day server py_str utc_offset self now section day tr
    = (Ok x, tr') →
  LibraryDay.date x = JStr (resolve_date utc_offset now day).
Proof.
  intros H.
  apply get_library_day_Ok in H as (? & items & data & _ & _ & Hf & Hd).
  assert (data ∈ filter (on_date (resolve_date utc_offset now day)) items)
    as Hin by (rewrite Hf; left).
  apply list_elem_of_filter in Hin as [Hon _].
  unfold on_date, passes, is_day in Hon.
  destruct (py_getitem data "day") as [v|] eqn:Hday; [|done].
  change (Is_true (match Ok (py_eq v (JStr (resolve_date utc_offset now day)))
                   with Ok true => true | _ => false end)) in Hon.
  destruct (py_eq v (JStr (resolve_date utc_offset now day))) eqn:E; [|done].
  apply py_eq_str in E as ->.
  unfold day_of in Hd.
  apply bind_Ok in Hd as (i & _ & Hd). apply bind_Ok in Hd as (dt & Hdt & Hd).
  inv_Ok. subst x. cbn [LibraryDay.date]. congruence.
Qed.

Lemma day_segment_date_witness :
  LibraryDay.date
    (LibraryDay.mk (JInt 11) (JStr "2024-01-01") (JStr "08:00")
       (JStr "22:00") Today)
  = JStr (resolve_date beijing 1704067199 Today).
Proof.
  apply (day_segment_date (answering days_listing) decimal beijing anonymous
           1704067199 section_2 Today [] _
           [day_request decimal anonymous section_2]).
  vm_compute. reflexivity.
Defined.

(** ** Further properties: opening and closing times *)

Lemma substring_0 (t rest : string) :
  String.substring 0 (String.length t) (t +:+ rest) = t.
Proof.
  induction t as [|c t IH].
  - by destruct rest.
  - change (String c (String.substring 0 (String.length t) (t +:+ rest))
            = String c t).
    by rewrite IH.
Qed.

Lemma substring_skip (a s : string) (n : nat) :
  String.substring (String.length a) n (a +:+ s) = String.substring 0 n s.
Proof. induction a as [|c a IH]; [done|]. exact IH. Qed.

Lemma substring_short (s : string) (n m : nat) :
  (String.length s ≤ n)%nat → String.substring n m s = "".
Proof.
  revert n; induction s as [|c s IH]; intros n Hn.
  - by destruct n, m.
  - destruct n as [|n]; cbn in *; [lia|]. apply IH. lia.
Qed.

(** X5. An entry with an [id] member, a [day] member and two timestamps
    with string [date] members is built into a day-segment without an
    exception, whatever the length of the timestamps, and the opening
    and closing times are the characters 11 to 15 of the timestamps:
    for a timestamp made of eleven characters (the date and a
    separator), five characters and any rest, the time is the five
    characters; for a timestamp of at most eleven characters it is the
    empty string. *)
Theorem day_segment_times (day : Day) (data id date : json) (s e : string) :
  py_getitem data "id" = Ok id →
  py_getitem data "day" = Ok date →
  timestamp data "startTime" = Ok (JStr s) →
  timestamp data "endTime" = Ok (JStr e) →
  ∃ x, day_of day data = Ok x ∧
    LibraryDay.id x = id ∧ LibraryDay.date x = date ∧
    (∀ d t rest, s = d +:+ t +:+ rest →
       String.length d = 11%nat → String.length t = 5%nat →
       LibraryDay.startTime x = JStr t) ∧
    (∀ d t rest, e = d +:+ t +:+ rest →
       String.length d = 11%nat → String.length t = 5%nat →
       LibraryDay.endTime x = JStr t) ∧
    ((String.length s ≤ 11)%nat → LibraryDay.startTime x = JStr "") ∧
    ((String.length e ≤ 11)%nat → LibraryDay.endTime x = JStr "").
Proof.
  intros Hid Hday Hs He.
  exists (LibraryDay.mk id date (JStr (String.substring 11 5 s))
            (JStr (String.substring 11 5 e)) day).
  split.
  { unfold timestamp in Hs, He.
    apply bind_Ok in Hs as (ts & Hts & Hs), He as (te & Hte & He).
    unfold day_of. rewrite Hid, Hday, Hts, Hte. cbn.
    by rewrite Hs, He. }
  cbn [LibraryDay.id LibraryDay.date LibraryDay.startTime LibraryDay.endTime].
  repeat split.
  - intros d t rest -> Hd Ht. f_equal.
    rewrite <- Hd, <- Ht at 1. by rewrite substring_skip, substring_0.
  - intros d t rest -> Hd Ht. f_equal.
    rewrite <- Hd, <- Ht at 1. by rewrite substring_skip, substring_0.
  - intros Hlen. f_equal. by apply substring_short.
  - intros Hlen. f_equal. by apply substring_short.
Qed.

Lemma day_segment_times_witness :
  (∃ x, day_of Today new_year = Ok x ∧
        LibraryDay.startTime x = JStr "08:00") ∧
  (∃ x, day_of Tomorrow timeless_day = Ok x ∧
        LibraryDay.startTime x = JStr "" ∧ LibraryDay.endTime x = JStr "").
Proof.
  split.
  - destruct (day_segment_times Today new_year (JInt 11) (JStr "2024-01-01")
                "2024-01-01 08:00:00.000000" "2024-01-01 22:00:00.000000")
      as (x & Hx & _ & _ & Hs & _); try (vm_compute; reflexivity).
    exists x. split; [exact Hx|].
    by apply (Hs "2024-01-01 " "08:00" ":00.000000").
  - destruct (day_segment_times Tomorrow timeless_day (JInt 13)
                (JStr "2024-01-03") "2024-01-03" "2024-01-03 ")
      as (x & Hx & _ & _ & _ & _ & Hs & He); try (vm_compute; reflexivity).
    exists x. split; [exact Hx|].
    split; [apply Hs | apply He]; vm_compute; lia.
Defined.

(** ** Further properties: when a listing returns *)

Lemma py_getitem_Ok (v : json) (k : string) (x : json) :
  py_getitem v k = Ok x ↔ ∃ d, v = JDict d ∧ d !! k = Some x.
Proof.
  destruct v; cbn; try (split; [done | by intros (? & ? & ?)]).
  destruct (d !! k) as [y|] eqn:E; split.
  - intros [= <-]. by exists d.
  - intros (d' & [= <-] & E'). congruence.
  - done.
  - intros (d' & [= <-] & E'). congruence.
Qed.

Lemma has_members_cons (k : string) (keys : list string) (data : json) :
  has_members (k :: keys) data ↔
  (∃ x, py_getitem data k = Ok x) ∧ has_members keys data.
Proof.
  unfold has_members. split.
  - intros (d & -> & H). apply Forall_cons in H as [[x Hx] H].
    split; [exists x; cbn; by rewrite Hx | by exists d].
  - intros [[x Hx] (d & -> & H)]. exists d. split; [done|].
    apply py_getitem_Ok in Hx as (d' & [= <-] & Hx). by constructor.
Qed.

Lemma has_members_one (k : string) (data : json) :
  has_members [k] data ↔ ∃ x, py_getitem data k = Ok x.
Proof.
  rewrite has_members_cons. split; [by intros [? _]|].
  intros [x Hx]. split; [by exists x|].
  apply py_getitem_Ok in Hx as (d & -> & _). exists d. by split.
Qed.

Lemma is_valid_evaluates (data : json) :
  (∃ b, is_valid data = Ok b) ↔ has_members ["isValid"] data.
Proof.
  rewrite has_members_one. unfold is_valid. split.
  - intros [b H]. apply bind_Ok in H as (x & Hx & _). by exists x.
  - intros [x ->]. by eexists.
Qed.

Lemma library_of_builds (data : json) :
  (∃ lib, library_of data = Ok lib) ↔
  has_members ["id"; "name"; "nameMerge"; "enname"; "ennameMerge"] data.
Proof.
  do 4 rewrite has_members_cons. rewrite has_members_one.
  unfold library_of. split.
  - intros [lib H]. inv_Ok. eauto 10.
  - intros ([? ->] & [? ->] & [? ->] & [? ->] & [? ->]). by eexists.
Qed.

Lemma seat_of_builds (section : LibrarySection.t) (data : json) :
  (∃ seat, seat_of section data = Ok seat) ↔
  has_members ["id"; "name"; "area_type"; "status"] data.
Proof.
  do 3 rewrite has_members_cons. rewrite has_members_one.
  unfold seat_of. split.
  - intros [seat H]. inv_Ok. eauto 10.
  - intros ([? ->] & [? ->] & [? ->] & [? ->]). by eexists.
Qed.

Lemma Forall_filter_impl {A : Type} (P : A → bool) (Q : A → Prop) (l : list A) :
  Forall Q (filter P l) ↔ Forall (fun x => P x → Q x) l.
Proof.
  rewrite !Forall_forall. split.
  - intros H x Hx HP. apply H. by apply list_elem_of_filter.
  - intros H x Hx. apply list_elem_of_filter in Hx as [HP Hx]. by apply H.
Qed.

(** When a comprehension returns. *)
Lemma comprehension_returns {A B : Type} (keep : A → result bool)
    (build : A → result B) (l : list A) :
  (∃ xs, comprehension keep build l = Ok xs) ↔
  Forall (fun data => ∃ b, keep data = Ok b) l ∧
  Forall (fun data => passes keep data → ∃ x, build data = Ok x) l.
Proof.
  rewrite <- Forall_filter_impl. split.
  - intros [xs H]. apply comprehension_Ok in H as [H2 H1]. split; [done|].
    clear H1. induction H2; constructor; eauto.
  - intros [H1 H2]. by apply comprehension_total.
Qed.

(** X6. [get_library_list] returns exactly when the server accepts the
    request, [data.list] can be iterated, every entry is an object with
    an [isValid] member, and every entry whose [isValid] is 1 has the
    five members of a library. Entries with another flag need nothing
    else; one entry out of shape fails the whole call. *)
Theorem get_library_list_returns (server : request → result response)
    (self : LibQuery) (tr : list request) :
  (∃ libs, (get_library_list server self tr).1 = Ok libs) ↔
  ∃ envelope items,
    accepted server (list_request self) envelope ∧
    list_items envelope = Ok items ∧
    Forall (has_members ["isValid"]) items ∧
    Forall (fun data =>
              valid data →
              has_members ["id"; "name"; "nameMerge"; "enname"; "ennameMerge"]
                data) items.
Proof.
  unfold get_library_list. rewrite fetch_then. cbn [fst]. split.
  - intros [libs H]. apply bind_Ok in H as (envelope & Hget & H).
    apply get_json_accepted in Hget. rewrite list_items_bind in H.
    apply bind_Ok in H as (items & Hi & H).
    exists envelope, items. split; [done|]. split; [done|].
    assert (∃ xs, comprehension is_valid library_of items = Ok xs) as Hc
      by eauto.
    apply comprehension_returns in Hc as [H1 H2]. split.
    + eapply Forall_impl; [exact H1|]. intros data. apply is_valid_evaluates.
    + eapply Forall_impl; [exact H2|]. intros data Hd Hv.
      apply library_of_builds. by apply Hd.
  - intros (envelope & items & Ha & Hi & H1 & H2).
    apply (get_json_accepted server self _ _ tr) in Ha. rewrite Ha. cbn.
    rewrite list_items_bind, Hi. cbn.
    apply comprehension_returns. split.
    + eapply Forall_impl; [exact H1|]. intros data. apply is_valid_evaluates.
    + eapply Forall_impl; [exact H2|]. intros data Hd Hv.
      apply library_of_builds. by apply Hd.
Qed.

(** X7. [get_library_seats] returns exactly when the server accepts the
    request, [data.list] can be iterated and every entry is an object
    with the four members of a seat: no entry is skipped, and one entry
    out of shape fails the whole call. *)
Theorem get_library_seats_returns (server : request → result response)
    (utc_offset : Z → Z) (self : LibQuery) (now : Z)
    (section : LibrarySection.t) (day : LibraryDay.t) (tr : list request) :
  (∃ seats,
     (get_library_seats server utc_offset self now section day tr).1
       = Ok seats) ↔
  ∃ envelope items,
    accepted server (seats_request utc_offset self now section day) envelope ∧
    list_items envelope = Ok items ∧
    Forall (has_members ["id"; "name"; "area_type"; "status"]) items.
Proof.
  unfold get_library_seats. rewrite fetch_then. cbn [fst]. split.
  - intros [seats H]. apply bind_Ok in H as (envelope & Hget & H).
    apply get_json_accepted in Hget. rewrite list_items_bind in H.
    apply bind_Ok in H as (items & Hi & H).
    exists envelope, items. split; [done|]. split; [done|].
    assert (∃ xs, comprehension no_filter (seat_of section) items = Ok xs)
      as Hc by eauto.
    apply comprehension_returns in Hc as [_ H2].
    eapply Forall_impl; [exact H2|]. intros data Hd.
    apply (seat_of_builds section). by apply Hd.
  - intros (envelope & items & Ha & Hi & H).
    apply (get_json_accepted server self _ _ tr) in Ha. rewrite Ha. cbn.
    rewrite list_items_bind, Hi. cbn.
    apply comprehension_returns. split.
    + apply Forall_forall. intros data _. by exists true.
    + eapply Forall_impl; [exact H|]. intros data Hd _.
      by apply seat_of_builds.
Qed.

(** ** Further properties: sorting the sections *)

Lemma numeric_as_int (v : json) : numeric v ↔ ∃ x, as_int v = Some x.
Proof.
  destruct v; cbn; split; try done; try by intros [? ?].
  all: intros _; by eexists.
Qed.

Lemma py_lt_numbers (a b : json) (x y : Z) :
  as_int a = Some x → as_int b = Some y → py_lt a b = Ok (x <? y).
Proof.
  destruct a, b; cbn; try done; by intros [= <-] [= <-].
Qed.

(** Comparing a number with a string raises. *)
Lemma py_lt_clash (a b : json) :
  scalar a → scalar b → numeric a ≠ numeric b → py_lt a b = Raise TypeError.
Proof. destruct a, b; cbn; done. Qed.

Lemma py_lt_same_kind (a b : json) :
  scalar a → scalar b → numeric a = numeric b → ∃ r, py_lt a b = Ok r.
Proof. destruct a, b; cbn; try done; intros; by eexists. Qed.

Section sorting_kinds.

Context {A : Type} (key : A → json).

Lemma insert_by_same_kind (n : bool) (x : A) (l : list A) :
  scalar (key x) → numeric (key x) = n →
  Forall (fun a => scalar (key a) ∧ numeric (key a) = n) l →
  ∃ l', insert_by key x l = Ok l' ∧ l' ≠ [] ∧
        Forall (fun a => scalar (key a) ∧ numeric (key a) = n) l'.
Proof.
  intros Hx Hn. induction 1 as [|y l [Hy Hny] Hl IH]; cbn.
  - eexists. split; [done|]. split; [done|]. by constructor.
  - destruct (py_lt_same_kind (key x) (key y)) as [b ->];
      [done | done | congruence |]. cbn. destruct b.
    + eexists. split; [done|]. split; [done|]. by repeat constructor.
    + destruct IH as (l' & -> & _ & Hl'). cbn.
      eexists. split; [done|]. split; [done|]. by constructor.
Qed.

Lemma sorted_into_same_kind (n : bool) (acc l : list A) :
  Forall (fun a => scalar (key a) ∧ numeric (key a) = n) acc →
  Forall (fun a => scalar (key a) ∧ numeric (key a) = n) l →
  ∃ l', sorted_into key acc l = Ok l'.
Proof.
  intros Hacc Hl. revert acc Hacc.
  induction Hl as [|x l [Hx Hn] Hl IH]; intros acc Hacc; cbn.
  - by eexists.
  - destruct (insert_by_same_kind n x acc Hx Hn Hacc) as (acc' & -> & _ & H').
    cbn. by apply IH.
Qed.

Lemma sorted_into_clash (n : bool) (acc l : list A) :
  acc ≠ [] →
  Forall (fun a => scalar (key a) ∧ numeric (key a) = n) acc →
  Forall (fun a => scalar (key a)) l →
  Exists (fun a => numeric (key a) ≠ n) l →
  sorted_into key acc l = Raise TypeError.
Proof.
  intros Hne Hacc Hl. revert acc Hne Hacc.
  induction Hl as [|x l Hx Hl IH]; intros acc Hne Hacc Hex.
  - by apply Exists_nil in Hex.
  - cbn. destruct (decide (numeric (key x) = n)) as [Hn|Hn].
    + destruct (insert_by_same_kind n x acc Hx Hn Hacc) as (acc' & -> & ? & ?).
      cbn. apply IH; try done.
      apply Exists_cons in Hex as [?|?]; done.
    + destruct acc as [|y acc]; [done|]. cbn.
      apply Forall_cons in Hacc as [[Hy Hny] _].
      rewrite py_lt_clash; [done | done | done | congruence].
Qed.

(** A list with numbers and strings among its keys cannot be sorted. *)
Lemma sorted_clash (l : list A) :
  Forall (fun a => scalar (key a)) l →
  Exists (fun a => numeric (key a) = true) l →
  Exists (fun a => numeric (key a) = false) l →
  sorted key l = Raise TypeError.
Proof.
  intros Hl Hnum Hstr. destruct l as [|x l]; [by apply Exists_nil in Hnum|].
  apply Forall_cons in Hl as [Hx Hl].
  unfold sorted. cbn.
  apply (sorted_into_clash (numeric (key x)));
    [done | by constructor | done |].
  destruct (numeric (key x)) eqn:E.
  - apply Exists_cons in Hstr as [?|Hstr]; [congruence|].
    eapply Exists_impl; [exact Hstr|]. cbn. intros a ->. done.
  - apply Exists_cons in Hnum as [?|Hnum]; [congruence|].
    eapply Exists_impl; [exact Hnum|]. cbn. intros a ->. done.
Qed.

(** A list whose keys are all numbers can. *)
Lemma sorted_numbers (l : list A) :
  Forall (fun a => numeric (key a)) l → ∃ l', sorted key l = Ok l'.
Proof.
  intros Hl. apply (sorted_into_same_kind true); [constructor|].
  eapply Forall_impl; [exact Hl|]. intros a. cbn.
  by destruct (key a).
Qed.

End sorting_kinds.

Lemma child_areas_bind {A : Type} (envelope : json) (k : list json → result A) :
  (data ← py_getitem envelope "data";
   list ← py_getitem data "list";
   data_list ← py_getitem list "childArea";
   items ← py_iter data_list;
   k items) = child_areas envelope ≫= k.
Proof.
  unfold child_areas.
  destruct (py_getitem envelope "data") as [data|]; [cbn|done].
  destruct (py_getitem data "list") as [list|]; [cbn|done].
  destruct (py_getitem list "childArea") as [data_list|]; [cbn|done].
  by destruct (py_iter data_list).
Qed.

(** A comprehension returns the elements built from those that pass. *)
Lemma comprehension_built {A B : Type} (keep : A → result bool)
    (build : A → result B) (l : list A) (xs : list B) :
  Forall (fun data => ∃ b, keep data = Ok b) l →
  Forall2 (fun data x => build data = Ok x) (filter (passes keep) l) xs →
  comprehension keep build l = Ok xs.
Proof.
  intros Hk. revert xs. induction Hk as [|data l [b Hb] _ IH]; intros xs H.
  - by apply Forall2_nil_inv_l in H as ->.
  - cbn. rewrite Hb. cbn. destruct b.
    + rewrite filter_cons_True in H by (unfold passes; by rewrite Hb).
      apply Forall2_cons_inv_l in H as (x & xs' & Hx & H & ->).
      by rewrite Hx, (IH _ H).
    + rewrite filter_cons_False in H
        by (unfold passes; rewrite Hb; cbn; tauto).
      by apply IH.
Qed.

Lemma Forall2_Forall_lr {A B : Type} (P : A → B → Prop) (Q : A → Prop)
    (R : B → Prop) (l : list A) (k : list B) :
  Forall2 P l k → Forall Q l → (∀ a b, P a b → Q a → R b) → Forall R k.
Proof.
  induction 1 as [|a b l k Hab _ IH]; intros HQ HPQ; [constructor|].
  apply Forall_cons in HQ as [Ha HQ]. constructor; eauto.
Qed.

(** What the sections operation computes once the server has accepted
    the request with a list of entries. *)
Lemma get_library_sections_accepted (server : request → result response)
    (py_str : json → string) (utc_offset : Z → Z) (self : LibQuery)
    now floor day tr envelope items :
  accepted server (sections_request py_str utc_offset self now floor day)
    envelope →
  child_areas envelope = Ok items →
  (get_library_sections server py_str utc_offset self now floor day tr).1 =
  (built ← comprehension is_valid (section_of floor) items;
   sorted LibrarySection.id built).
Proof.
  intros Ha Hi. unfold get_library_sections. cbv zeta.
  rewrite fetch_then. cbn [fst].
  unfold sections_request in Ha.
  apply (get_json_accepted server self _ _ tr) in Ha. rewrite Ha. cbn.
  by rewrite child_areas_bind, Hi.
Qed.

Lemma section_shaped_builds (floor : LibraryFloor.t) (data : json) :
  section_shaped data →
  ∃ s, section_of floor data = Ok s ∧ numeric (LibrarySection.id s).
Proof.
  intros (d & id & total & unavailable & -> & Hid & Hnid & [name Hname]
          & [enname Henname] & Ht & Hnt & Hu & Hnu).
  apply numeric_as_int in Hnt as [t Hti], Hnu as [u Hui].
  unfold section_of, py_sub. cbn.
  rewrite Hid, Hname, Henname, Ht, Hu. cbn. rewrite Hti, Hui. cbn.
  by eexists.
Qed.

(** X8. A well-formed payload never makes [get_library_sections] fail:
    when the server accepts the request, every entry has an [isValid]
    member, and every entry whose [isValid] is 1 has the members of a
    section with a numeric identifier and numeric counts, the call
    returns. *)
Theorem get_library_sections_returns (server : request → result response)
    (py_str : json → string) (utc_offset : Z → Z) (self : LibQuery)
    now floor day tr envelope items :
  accepted server (sections_request py_str utc_offset self now floor day)
    envelope →
  child_areas envelope = Ok items →
  Forall (has_members ["isValid"]) items →
  Forall (fun data => valid data → section_shaped data) items →
  ∃ sections,
    (get_library_sections server py_str utc_offset self now floor day tr).1
      = Ok sections.
Proof.
  intros Ha Hi Hflag Hshape.
  rewrite (get_library_sections_accepted _ _ _ _ _ _ _ _ _ _ Ha Hi).
  assert (∃ built, comprehension is_valid (section_of floor) items = Ok built)
    as [built Hc].
  { apply comprehension_returns. split.
    - eapply Forall_impl; [exact Hflag|]. intros data.
      apply is_valid_evaluates.
    - eapply Forall_impl; [exact Hshape|]. intros data Hd Hv.
      destruct (section_shaped_builds floor data (Hd Hv)) as (s & Hs & _).
      by exists s. }
  rewrite Hc. cbn. apply sorted_numbers.
  apply comprehension_Ok in Hc as [Hc _].
  apply Forall_filter_impl in Hshape.
  eapply Forall2_Forall_lr; [exact Hc | exact Hshape |].
  intros data s Hs Hd. cbn in Hs.
  destruct (section_shaped_builds floor data Hd) as (s' & Hs' & Hn).
  congruence.
Qed.

Lemma get_library_sections_returns_witness :
  ∃ sections,
    (get_library_sections (answering scenario) decimal beijing anonymous
       1704067199 first_floor Today []).1 = Ok sections.
Proof.
  apply (get_library_sections_returns (answering scenario) decimal beijing
           anonymous 1704067199 first_floor Today [] scenario
           [section_entry 5 10 3 1; section_entry 2 4 4 1;
            section_entry 7 9 0 0]).
  - eexists. split; [reflexivity|]. split; [reflexivity|].
    split; [reflexivity|]. exists (JInt 1). by vm_compute.
  - by vm_compute.
  - rewrite !Forall_cons. split; [|split; [|split; [|done]]];
      (eexists; split; [reflexivity|]; rewrite Forall_singleton;
       vm_compute; by eexists).
  - rewrite !Forall_cons. split; [|split; [|split; [|done]]]; intros _;
      (do 4 eexists; split; [reflexivity|]; vm_compute;
       split; [reflexivity|]; split; [done|]; split; [by eexists|];
       split; [by eexists|]; split; [reflexivity|]; split; [done|];
       split; [reflexivity|done]).
Defined.

(** X9. Identifiers of two kinds cannot be ordered: when the sections
    built from the valid entries have numbers or strings for
    identifiers, at least one of each, [get_library_sections] raises
    [TypeError]. *)
Theorem get_library_sections_mixed_ids (server : request → result response)
    (py_str : json → string) (utc_offset : Z → Z) (self : LibQuery)
    now floor day tr envelope items built :
  accepted server (sections_request py_str utc_offset self now floor day)
    envelope →
  child_areas envelope = Ok items →
  Forall (has_members ["isValid"]) items →
  Forall2 (fun data s => section_of floor data = Ok s)
    (filter valid items) built →
  Forall (fun s => scalar (LibrarySection.id s)) built →
  Exists (fun s => numeric (LibrarySection.id s) = true) built →
  Exists (fun s => numeric (LibrarySection.id s) = false) built →
  (get_library_sections server py_str utc_offset self now floor day tr).1
    = Raise TypeError.
Proof.
  intros Ha Hi Hflag Hbuilt Hsc Hnum Hstr.
  rewrite (get_library_sections_accepted _ _ _ _ _ _ _ _ _ _ Ha Hi).
  rewrite (comprehension_built is_valid (section_of floor) items built).
  - cbn. by apply sorted_clash.
  - eapply Forall_impl; [exact Hflag|]. intros data.
    apply is_valid_evaluates.
  - done.
Qed.

Lemma get_library_sections_mixed_ids_witness :
  (get_library_sections
     (answering (child_area_listing
                   [labelled_entry (JInt 1) "A" 4 0;
                    labelled_entry (JStr "2") "B" 4 0]))
     decimal beijing anonymous 1704067199 first_floor Today []).1
  = Raise TypeError.
Proof.
  apply (get_library_sections_mixed_ids _ decimal beijing anonymous
           1704067199 first_floor Today []
           (child_area_listing
              [labelled_entry (JInt 1) "A" 4 0;
               labelled_entry (JStr "2") "B" 4 0])
           [labelled_entry (JInt 1) "A" 4 0;
            labelled_entry (JStr "2") "B" 4 0]
           [labelled_section (JInt 1) "A" 4 0;
            labelled_section (JStr "2") "B" 4 0]).
  - eexists. split; [reflexivity|]. split; [reflexivity|].
    split; [reflexivity|]. exists (JInt 1). by vm_compute.
  - by vm_compute.
  - rewrite !Forall_cons. split; [|split; [|done]];
      (eexists; split; [reflexivity|]; rewrite Forall_singleton;
       vm_compute; by eexists).
  - assert (filter valid [labelled_entry (JInt 1) "A" 4 0;
                          labelled_entry (JStr "2") "B" 4 0]
            = [labelled_entry (JInt 1) "A" 4 0;
               labelled_entry (JStr "2") "B" 4 0]) as -> by (by vm_compute).
    constructor; [by vm_compute|]. constructor; [by vm_compute|]. constructor.
  - rewrite !Forall_cons. by vm_compute.
  - apply Exists_cons_hd. reflexivity.
  - apply Exists_cons_tl, Exists_cons_hd. reflexivity.
Defined.

(** ** Further properties: the sort is stable *)

Lemma filter_none {A : Type} (P : A → Prop) `{!∀ x, Decision (P x)}
    (l : list A) :
  Forall (fun x => ¬ P x) l → filter P l = [].
Proof.
  induction 1 as [|x l Hx _ IH]; [done|].
  by rewrite filter_cons_False.
Qed.

Section stability.

Context {A : Type} (key : A → json).

Lemma numeric_scalar (v : json) : numeric v → scalar v.
Proof. by destruct v. Qed.

Lemma py_le_numbers (a b : json) (x y : Z) :
  as_int a = Some x → as_int b = Some y → py_le a b → x ≤ y.
Proof.
  intros Ha Hb. unfold py_le. rewrite (py_lt_numbers b a y x Hb Ha).
  intros [= H]. lia.
Qed.

(** Inserting an element puts it after the elements with the same
    key. *)
Lemma insert_by_filter (k : Z) (x : A) (l l' : list A) :
  insert_by key x l = Ok l' →
  numeric (key x) → Forall (fun a => numeric (key a)) l →
  StronglySorted (fun a b => py_le (key a) (key b)) l →
  filter (fun a => bool_decide (as_int (key a) = Some k)) l' =
  filter (fun a => bool_decide (as_int (key a) = Some k)) l ++
  filter (fun a => bool_decide (as_int (key a) = Some k)) [x].
Proof.
  intros H Hx Hl Hs. revert l' H.
  induction Hs as [|y l Hs IH Hy]; intros l' H; cbn in H.
  - by injection H as <-.
  - apply Forall_cons in Hl as [Hny Hl].
    apply numeric_as_int in Hx as [kx Hkx].
    pose proof Hny as Hny'. apply numeric_as_int in Hny' as [ky Hky].
    rewrite (py_lt_numbers _ _ _ _ Hkx Hky) in H. cbn in H.
    destruct (Z.ltb_spec kx ky) as [Hlt|Hge].
    + injection H as <-.
      rewrite (filter_cons _ x). rewrite (filter_cons _ x []).
      case_bool_decide as Hk; [|by rewrite app_nil_r].
      assert (filter (fun a => bool_decide (as_int (key a) = Some k)) (y :: l)
              = []) as ->; [|done].
      apply filter_none, Forall_cons. split.
      * intros Hyk. apply bool_decide_unpack in Hyk. simplify_eq. lia.
      * rewrite Forall_forall in Hy, Hl. apply Forall_forall.
        intros a Ha Hak. apply bool_decide_unpack in Hak.
        pose proof (py_le_numbers _ _ ky k Hky Hak (Hy a Ha)).
        simplify_eq. lia.
    + apply bind_Ok in H as (l'' & Hins & H). injection H as <-.
      rewrite !(filter_cons _ y), (IH Hl _ Hins).
      by case_bool_decide.
Qed.

Lemma insert_by_numeric (x : A) (l l' : list A) :
  insert_by key x l = Ok l' →
  numeric (key x) → Forall (fun a => numeric (key a)) l →
  Forall (fun a => numeric (key a)) l'.
Proof.
  intros H Hx Hl. rewrite (insert_by_Permutation key _ _ _ H).
  by constructor.
Qed.

Lemma sorted_into_filter (k : Z) (acc l l' : list A) :
  sorted_into key acc l = Ok l' →
  Forall (fun a => numeric (key a)) acc →
  Forall (fun a => numeric (key a)) l →
  Sorted (fun a b => in_order (key a) (key b)) acc →
  filter (fun a => bool_decide (as_int (key a) = Some k)) l' =
  filter (fun a => bool_decide (as_int (key a) = Some k)) acc ++
  filter (fun a => bool_decide (as_int (key a) = Some k)) l.
Proof.
  revert acc. induction l as [|x l IH]; intros acc H Hacc Hl Hs; cbn in H.
  - injection H as <-. by rewrite app_nil_r.
  - apply bind_Ok in H as (acc' & Hins & H).
    apply Forall_cons in Hl as [Hx Hl].
    rewrite (IH acc' H); [| by eapply insert_by_numeric | done
                          | by eapply insert_by_Sorted].
    rewrite (insert_by_filter k x acc acc' Hins Hx Hacc).
    + rewrite (filter_cons _ x l), (filter_cons _ x []).
      rewrite <- app_assoc. by case_bool_decide.
    + apply Sorted_scalar; [|done].
      eapply Forall_impl; [exact Hacc|]. intros a. apply numeric_scalar.
Qed.

(** Sorting keeps, for every number, the elements with that key in the
    order they had. *)
Lemma sorted_stable (k : Z) (l l' : list A) :
  sorted key l = Ok l' →
  Forall (fun a => numeric (key a)) l →
  filter (fun a => bool_decide (as_int (key a) = Some k)) l' =
  filter (fun a => bool_decide (as_int (key a) = Some k)) l.
Proof.
  intros H Hl.
  by rewrite (sorted_into_filter k [] l l' H); [| constructor | | constructor].
Qed.

End stability.

(** X10. The sort of the sections is stable: when the identifiers are
    numbers, the sections returned with a given identifier are, in the
    same order, the sections with that identifier built from the valid
    entries of the payload. *)
Theorem get_library_sections_stable (server : request → result response)
    (py_str : json → string) (utc_offset : Z → Z) (self : LibQuery)
    now floor day tr sections tr' :
  get_library_sections server py_str utc_offset self now floor day tr
    = (Ok sections, tr') →
  ∃ envelope items built,
    accepted server (sections_request py_str utc_offset self now floor day)
      envelope ∧
    child_areas envelope = Ok items ∧
    Forall2 (fun data s => section_of floor data = Ok s)
      (filter valid items) built ∧
    (Forall (fun s => numeric (LibrarySection.id s)) built →
     ∀ k, filter (has_id k) sections = filter (has_id k) built).
Proof.
  intros H.
  apply get_library_sections_Ok in H
    as (envelope & items & built & Ha & Hi & Hc & Hs).
  apply comprehension_Ok in Hc as [Hc _].
  exists envelope, items, built. repeat split; try done.
  intros Hnum k. by apply (sorted_stable LibrarySection.id).
Qed.

Lemma get_library_sections_stable_witness :
  ∃ envelope items built,
    accepted (answering (child_area_listing
                [labelled_entry (JInt 2) "B" 4 0;
                 labelled_entry (JInt 1) "A" 4 0;
                 labelled_entry (JInt 2) "C" 9 2]))
      (sections_request decimal beijing anonymous 1704067199 first_floor Today)
      envelope ∧
    child_areas envelope = Ok items ∧
    Forall2 (fun data s => section_of first_floor data = Ok s)
      (filter valid items) built ∧
    (Forall (fun s => numeric (LibrarySection.id s)) built →
     ∀ k, filter (has_id k)
            [labelled_section (JInt 1) "A" 4 0;
             labelled_section (JInt 2) "B" 4 0;
             labelled_section (JInt 2) "C" 9 2]
          = filter (has_id k) built).
Proof.
  apply (get_library_sections_stable _ decimal beijing anonymous 1704067199
           first_floor Today [] _
           [sections_request decimal beijing anonymous 1704067199
              first_floor Today]).
  vm_compute. reflexivity.
Defined.

(** ** Further properties: [main] *)

Section main_facts.

Context (server : request → result response).
Context (py_str : json → string).
Context (utc_offset : Z → Z).
Context (self : LibQuery).

(** An operation is one request followed by a computation on the
    envelope: its result does not depend on the requests sent before,
    and it adds its request to them. *)
Lemma fetch_split {A : Type} (url : string)
    (params : option (gmap string json)) (k : json → result A)
    (tr : list request) :
  (get_json server self url params ≫= (fun v => lift (k v))) tr =
  (((get_json server self url params ≫= (fun v => lift (k v))) []).1,
   tr ++ [request_of self url params]).
Proof. rewrite !fetch_then. cbn [fst]. by rewrite get_json_result. Qed.

Lemma get_library_list_split tr :
  get_library_list server self tr =
  ((get_library_list server self []).1, tr ++ [list_request self]).
Proof. apply fetch_split. Qed.

Lemma get_library_floors_split library tr :
  get_library_floors server py_str self library tr =
  ((get_library_floors server py_str self library []).1,
   tr ++ [floors_request py_str self library]).
Proof. apply fetch_split. Qed.

Lemma get_library_sections_split now floor day tr :
  get_library_sections server py_str utc_offset self now floor day tr =
  ((get_library_sections server py_str utc_offset self now floor day []).1,
   tr ++ [sections_request py_str utc_offset self now floor day]).
Proof. apply fetch_split. Qed.

Lemma get_library_day_split now section day tr :
  get_library_day server py_str utc_offset self now section day tr =
  ((get_library_day server py_str utc_offset self now section day []).1,
   tr ++ [day_request py_str self section]).
Proof. apply fetch_split. Qed.

Lemma get_library_seats_split now section day tr :
  get_library_seats server utc_offset self now section day tr =
  ((get_library_seats server utc_offset self now section day []).1,
   tr ++ [seats_request utc_offset self now section day]).
Proof. apply fetch_split. Qed.

Lemma get_library_day_tag now section day x :
  (get_library_day server py_str utc_offset self now section day []).1 = Ok x →
  LibraryDay.day x = day.
Proof.
  destruct (get_library_day server py_str utc_offset self now section day [])
    as [r tr'] eqn:E.
  cbn. intros ->.
  apply get_library_day_Ok in E as (? & ? & data & _ & _ & _ & Hd).
  unfold day_of in Hd. inv_Ok. by subst x.
Qed.

(** [main] unfolded along the outcomes of its five calls. *)
Lemma main_walk_unfold t1 t2 t3 tr :
  main_walk server py_str utc_offset self t1 t2 t3 tr =
  match (get_library_list server self []).1 with
  | Raise e => (Raise e, tr ++ [list_request self])
  | Ok [] => (Raise IndexError, tr ++ [list_request self])
  | Ok (library :: _) =>
    match (get_library_floors server py_str self library []).1 with
    | Raise e =>
      (Raise e, tr ++ [list_request self; floors_request py_str self library])
    | Ok [] =>
      (Raise IndexError,
       tr ++ [list_request self; floors_request py_str self library])
    | Ok (floor :: _) =>
      match (get_library_sections server py_str utc_offset self t1 floor
               Today []).1 with
      | Raise e =>
        (Raise e,
         tr ++ [list_request self; floors_request py_str self library;
                sections_request py_str utc_offset self t1 floor Today])
      | Ok [] =>
        (Raise IndexError,
         tr ++ [list_request self; floors_request py_str self library;
                sections_request py_str utc_offset self t1 floor Today])
      | Ok (section :: _) =>
        match (get_library_day server py_str utc_offset self t2 section
                 Today []).1 with
        | Raise e =>
          (Raise e,
           tr ++ [list_request self; floors_request py_str self library;
                  sections_request py_str utc_offset self t1 floor Today;
                  day_request py_str self section])
        | Ok lib_day =>
          (match (get_library_seats server utc_offset self t3 section
                    lib_day []).1 with
           | Raise e => Raise e
           | Ok _ => Ok tt
           end,
           tr ++ [list_request self; floors_request py_str self library;
                  sections_request py_str utc_offset self t1 floor Today;
                  day_request py_str self section;
                  seats_request utc_offset self t3 section lib_day])
        end
      end
    end
  end.
Proof.
  unfold main_walk.
  unfold mbind at 1, io_bind. rewrite get_library_list_split.
  destruct (get_library_list server self []).1 as [[|library libs]|e];
    cbn [fst snd]; try done.
  unfold mbind at 1, io_bind, lift, py_first.
  unfold mbind at 1, io_bind. rewrite get_library_floors_split.
  destruct (get_library_floors server py_str self library []).1
    as [[|floor floors]|e]; cbn [fst snd]; rewrite <- ?app_assoc; try done.
  unfold mbind at 1, io_bind.
  unfold mbind at 1, io_bind. rewrite get_library_sections_split.
  destruct (get_library_sections server py_str utc_offset self t1 floor
              Today []).1 as [[|section sections]|e];
    cbn [fst snd]; rewrite <- ?app_assoc; try done.
  unfold mbind at 1, io_bind.
  unfold mbind at 1, io_bind. rewrite get_library_day_split.
  destruct (get_library_day server py_str utc_offset self t2 section
              Today []).1 as [lib_day|e];
    cbn [fst snd]; rewrite <- ?app_assoc; try done.
  unfold mbind at 1, io_bind. rewrite get_library_seats_split.
  destruct (get_library_seats server utc_offset self t3 section
              lib_day []).1 as [seats|e];
    cbn [fst snd]; rewrite <- ?app_assoc; done.
Qed.

End main_facts.

(** X11. A run of [main] that returns has sent five requests, in the
    order of the hierarchy: the library list, the floors of the first
    library, the sections of its first floor for today, the
    day-segments of the first section (in sorted order), and the seats
    of that section. Both day tags being left to [Day.Today], the seat
    query starts at the current minute. *)
Theorem main_walk_requests (server : request → result response)
    (py_str : json → string) (utc_offset : Z → Z) (lib : LibQuery)
    (t1 t2 t3 : Z) (tr tr' : list request) :
  main_walk server py_str utc_offset lib t1 t2 t3 tr = (Ok tt, tr') →
  ∃ library libs floor floors section sections lib_day,
    (get_library_list server lib []).1 = Ok (library :: libs) ∧
    (get_library_floors server py_str lib library []).1
      = Ok (floor :: floors) ∧
    (get_library_sections server py_str utc_offset lib t1 floor Today []).1
      = Ok (section :: sections) ∧
    (get_library_day server py_str utc_offset lib t2 section Today []).1
      = Ok lib_day ∧
    tr' = tr ++ [list_request lib;
                 floors_request py_str lib library;
                 sections_request py_str utc_offset lib t1 floor Today;
                 day_request py_str lib section;
                 seats_request utc_offset lib t3 section lib_day] ∧
    seats_params utc_offset t3 section lib_day !! "startTime"
      = Some (JStr (wall_clock_minutes utc_offset t3)).
Proof.
  rewrite main_walk_unfold. intros H.
  destruct (get_library_list server lib []).1
    as [[|library libs]|e] eqn:E1; try done.
  destruct (get_library_floors server py_str lib library []).1
    as [[|floor floors]|?] eqn:E2; try done.
  destruct (get_library_sections server py_str utc_offset lib t1 floor
              Today []).1 as [[|section sections]|?] eqn:E3; try done.
  destruct (get_library_day server py_str utc_offset lib t2 section
              Today []).1 as [lib_day|?] eqn:E4; try done.
  injection H as _ <-.
  exists library, libs, floor, floors, section, sections, lib_day.
  repeat split; try done.
  apply get_library_day_tag in E4.
  unfold seats_params. cbv zeta. rewrite strftime_hh_mm, E4.
  by simplify_map_eq.
Qed.

Lemma main_walk_requests_witness :
  ∃ library libs floor floors section sections lib_day,
    (get_library_list campus anonymous []).1 = Ok (library :: libs) ∧
    (get_library_floors campus decimal anonymous library []).1
      = Ok (floor :: floors) ∧
    (get_library_sections campus decimal beijing anonymous 1704067199 floor
       Today []).1 = Ok (section :: sections) ∧
    (get_library_day campus decimal beijing anonymous 1704067199 section
       Today []).1 = Ok lib_day ∧
    (main_walk campus decimal beijing anonymous 1704067199 1704067199
       1704067199 []).2
    = [] ++ [list_request anonymous;
             floors_request decimal anonymous library;
             sections_request decimal beijing anonymous 1704067199 floor Today;
             day_request decimal anonymous section;
             seats_request beijing anonymous 1704067199 section lib_day] ∧
    seats_params beijing 1704067199 section lib_day !! "startTime"
      = Some (JStr (wall_clock_minutes beijing 1704067199)).
Proof.
  apply (main_walk_requests campus decimal beijing anonymous 1704067199
           1704067199 1704067199 []).
  vm_compute. reflexivity.
Defined.

(** X12. [main] takes the first element of each list: when the library
    list, the floor list of the first library or the section list of
    its first floor comes back empty, [main] raises [IndexError] and
    has sent one, two or three requests. *)
Theorem main_walk_empty (server : request → result response)
    (py_str : json → string) (utc_offset : Z → Z) (lib : LibQuery)
    (t1 t2 t3 : Z) (tr : list request) :
  ((get_library_list server lib []).1 = Ok [] →
   main_walk server py_str utc_offset lib t1 t2 t3 tr
   = (Raise IndexError, tr ++ [list_request lib])) ∧
  (∀ library libs,
     (get_library_list server lib []).1 = Ok (library :: libs) →
     (get_library_floors server py_str lib library []).1 = Ok [] →
     main_walk server py_str utc_offset lib t1 t2 t3 tr
     = (Raise IndexError,
        tr ++ [list_request lib; floors_request py_str lib library])) ∧
  (∀ library libs floor floors,
     (get_library_list server lib []).1 = Ok (library :: libs) →
     (get_library_floors server py_str lib library []).1
       = Ok (floor :: floors) →
     (get_library_sections server py_str utc_offset lib t1 floor Today []).1
       = Ok [] →
     main_walk server py_str utc_offset lib t1 t2 t3 tr
     = (Raise IndexError,
        tr ++ [list_request lib; floors_request py_str lib library;
               sections_request py_str utc_offset lib t1 floor Today])).
Proof.
  rewrite main_walk_unfold. repeat split.
  - by intros ->.
  - intros library libs -> H. by rewrite H.
  - intros library libs floor floors -> H1 H2. by rewrite H1, H2.
Qed.

Lemma main_walk_empty_witness :
  main_walk closed_campus decimal beijing anonymous 1704067199 1704067199
    1704067199 []
  = (Raise IndexError, [] ++ [list_request anonymous]).
Proof.
  destruct (main_walk_empty closed_campus decimal beijing anonymous
              1704067199 1704067199 1704067199 []) as [H _].
  apply H. vm_compute. reflexivity.
Defined.

(** X13. [main] sends at least one and at most five requests, whatever
    the server answers; each of them carries the session and the
    headers that the login returned and allows redirects; and when
    fewer than five were sent, [main] has raised. *)
Theorem main_walk_bounded (server : request → result response)
    (py_str : json → string) (utc_offset : Z → Z) (lib : LibQuery)
    (t1 t2 t3 : Z) (tr : list request) :
  ∃ reqs,
    (main_walk server py_str utc_offset lib t1 t2 t3 tr).2 = tr ++ reqs ∧
    (1 ≤ length reqs ≤ 5)%nat ∧
    Forall (fun r => req_session r = session lib ∧
                     req_headers r = headers lib ∧
                     req_allow_redirects r = true) reqs ∧
    ((length reqs < 5)%nat →
     ∃ e, (main_walk server py_str utc_offset lib t1 t2 t3 tr).1 = Raise e).
Proof.
  rewrite main_walk_unfold.
  repeat case_match; eexists; (split; [reflexivity|]); cbn [length fst];
    (split; [lia|]); (split; [by repeat constructor|]);
    first [by eexists | lia].
Qed.

(** ** Further properties: the login routines *)

(** The polling loop does not touch the machine. *)
Lemma poll_machine (w : world) (fuel i : nat) (m : machine) o m' :
  poll w fuel i m = (o, m') → m' = m.
Proof.
  revert i. induction fuel as [|fuel IH]; intros i; cbn [poll].
  - by intros [= _ <-].
  - unfold mbind, proc_bind, call, mret, proc_ret.
    destruct (on_current_url w i) as [url|e]; [|by intros [= _ <-]].
    destruct (py_in _ url); [by intros [= _ <-]|].
    destruct (on_sleep w i) as [[]|e]; [|by intros [= _ <-]].
    apply IH.
Qed.

(** When the loop ends normally, one reading of the address bar showed
    the tunnel; every reading before it showed something else and was
    followed by a sleep. *)
Lemma poll_Ok (w : world) (fuel i : nat) (m m' : machine) :
  poll w fuel i m = (Some (Ok tt), m') →
  ∃ n url, (n < fuel)%nat ∧
    on_current_url w (i + n) = Ok url ∧
    py_in "webvpn.tsinghua.edu.cn" url = true ∧
    ∀ k, (k < n)%nat →
      ∃ u, on_current_url w (i + k) = Ok u ∧
           py_in "webvpn.tsinghua.edu.cn" u = false ∧
           on_sleep w (i + k) = Ok tt.
Proof.
  revert i. induction fuel as [|fuel IH]; intros i; cbn [poll]; [done|].
  unfold mbind, proc_bind, call, mret, proc_ret.
  destruct (on_current_url w i) as [url|e] eqn:Eurl; [|done].
  destruct (py_in _ url) eqn:Ein.
  - intros _. exists 0%nat, url. rewrite Nat.add_0_r.
    repeat split; try done; lia.
  - destruct (on_sleep w i) as [[]|e] eqn:Esl; [|done].
    intros H. apply IH in H as (n & url' & Hn & Hu & Hin & Hbefore).
    exists (S n), url'. replace (i + S n)%nat with (S i + n)%nat by lia.
    repeat split; try done; [lia|].
    intros [|k] Hk.
    + rewrite Nat.add_0_r. by exists url.
    + replace (i + S k)%nat with (S i + k)%nat by lia. apply Hbefore. lia.
Qed.

(** The loop raises what a reading of the address bar or a sleep
    raised. *)
Lemma poll_Raise (w : world) (fuel i : nat) (m m' : machine) (e : exn) :
  poll w fuel i m = (Some (Raise e), m') →
  ∃ n, on_current_url w n = Raise e ∨ on_sleep w n = Raise e.
Proof.
  revert i. induction fuel as [|fuel IH]; intros i; cbn [poll]; [done|].
  unfold mbind, proc_bind, call, mret, proc_ret.
  destruct (on_current_url w i) as [url|e'] eqn:Eurl.
  - destruct (py_in _ url); [done|].
    destruct (on_sleep w i) as [[]|e'] eqn:Esl.
    + apply IH.
    + intros [= <- _]. exists i. by right.
  - intros [= <- _]. exists i. by left.
Qed.

(** X14. The hand-over. When a login routine returns, the [LibQuery] it
    returns holds a session whose jar is the cookies of the browser,
    set one by one into an empty jar, and the single header
    [User-Agent] with the string the browser reported. *)
Theorem login_hands_over (w : world) (m : machine) :
  (∀ fuel username password lib m',
     webvpn_login w fuel username password m = (Some (Ok lib), m') →
     ∃ cookies user_agent jar,
       on_get_cookies w = Ok cookies ∧
       on_userAgent w = Ok user_agent ∧
       set_cookies ∅ cookies = Ok jar ∧
       lib = mk_LibQuery (mk_Session jar) {[ "User-Agent" := user_agent ]}) ∧
  (∀ lib m',
     webvpn_login_manual w m = (Some (Ok lib), m') →
     ∃ cookies user_agent jar,
       on_get_cookies w = Ok cookies ∧
       on_userAgent w = Ok user_agent ∧
       set_cookies ∅ cookies = Ok jar ∧
       lib = mk_LibQuery (mk_Session jar) {[ "User-Agent" := user_agent ]}).
Proof.
  split.
  - intros fuel username password lib m'.
    unfold webvpn_login, try_finally, try_except, Chrome, quit, extract, call,
      print, mbind, proc_bind, mret, proc_ret.
    intros H. repeat (case_match; simplify_eq); by eexists _, _, _.
  - intros lib m'.
    unfold webvpn_login_manual, try_finally, Chrome, quit, extract, call,
      print, mbind, proc_bind, mret, proc_ret.
    intros H. repeat (case_match; simplify_eq); by eexists _, _, _.
Qed.

Lemma login_hands_over_witness :
  ∃ cookies user_agent jar,
    on_get_cookies smooth_login = Ok cookies ∧
    on_userAgent smooth_login = Ok user_agent ∧
    set_cookies ∅ cookies = Ok jar ∧
    mk_LibQuery
      (mk_Session
         {[ ("webvpn.tsinghua.edu.cn", "/", "wengine_vpn_ticket") := "0123" ]})
      {[ "User-Agent" := "Mozilla/5.0" ]}
    = mk_LibQuery (mk_Session jar) {[ "User-Agent" := user_agent ]}.
Proof.
  apply (proj1 (login_hands_over smooth_login boot) 3%nat "user" "secret" _
           (webvpn_login smooth_login 3 "user" "secret" boot).2).
  vm_compute. reflexivity.
Defined.

Lemma dict_get_Ok (d : gmap string string) (k v : string) :
  dict_get d k = Ok v ↔ d !! k = Some v.
Proof. unfold dict_get. destruct (d !! k); naive_solver. Qed.

Lemma dict_get_Raise (d : gmap string string) (k : string) (e : exn) :
  dict_get d k = Raise e → e = KeyError ∧ d !! k = None.
Proof. unfold dict_get. destruct (d !! k); naive_solver. Qed.

Lemma set_cookies_cons (jar : cookiejar) (c : gmap string string)
    (l : list (gmap string string)) :
  set_cookies jar (c :: l) =
  (name ← dict_get c "name";
   value ← dict_get c "value";
   domain ← dict_get c "domain";
   path ← dict_get c "path";
   set_cookies (<[(domain, path, name) := filed_value value]> jar) l).
Proof. reflexivity. Qed.

(** A value that does not both start and end with a double quote is
    filed as it is. *)
Lemma filed_value_plain (value : string) :
  starts_with double_quote value && ends_with double_quote value = false →
  filed_value value = value.
Proof. unfold filed_value. by intros ->. Qed.

(** X15. The jar files a cookie under its domain, path and name, and a
    later cookie replaces an earlier one filed under the same three:
    after the cookies are set, the jar holds under each key the value
    of the last cookie with that key, as the jar files it (a value
    enclosed in double quotes without its backslash-quote pairs, any
    other value unchanged), and what it held before under the keys of
    no cookie. *)
Theorem set_cookies_last_wins (jar jar' : cookiejar)
    (l : list (gmap string string)) (key : string * string * string) :
  set_cookies jar l = Ok jar' →
  jar' !! key =
    match last (filter (fun c => cookie_key c = Some key) l) with
    | Some c => filed_value <$> c !! "value"
    | None => jar !! key
    end ∧
  (∀ c value,
     last (filter (fun c => cookie_key c = Some key) l) = Some c →
     c !! "value" = Some value →
     starts_with double_quote value && ends_with double_quote value = false →
     jar' !! key = Some value).
Proof.
  intros H.
  assert (jar' !! key =
            match last (filter (fun c => cookie_key c = Some key) l) with
            | Some c => filed_value <$> c !! "value"
            | None => jar !! key
            end) as Hlast.
  { revert jar H. induction l as [|c l IH]; intros jar H.
    - by injection H as <-.
    - rewrite set_cookies_cons in H.
      apply bind_Ok in H as (name & Hname & H).
      apply bind_Ok in H as (value & Hvalue & H).
      apply bind_Ok in H as (domain & Hdomain & H).
      apply bind_Ok in H as (path & Hpath & H).
      apply dict_get_Ok in Hname, Hvalue, Hdomain, Hpath.
      assert (cookie_key c = Some (domain, path, name)) as Hkey.
      { unfold cookie_key. by rewrite Hdomain, Hpath, Hname. }
      rewrite (IH _ H), filter_cons.
      destruct (decide (cookie_key c = Some key)) as [Hk|Hk].
      + assert (key = (domain, path, name)) as -> by congruence.
        rewrite last_cons. destruct (last _); [done|].
        rewrite Hvalue. apply lookup_insert_eq.
      + destruct (last _); [done|]. apply lookup_insert_ne.
        intros <-. by apply Hk. }
  split; [exact Hlast|].
  intros c value Hc Hv Hplain. rewrite Hlast, Hc, Hv. cbn.
  by rewrite filed_value_plain.
Qed.

Lemma set_cookies_last_wins_witness :
  (<[ticket_key := String double_quote
                     (String "a" (String "b" (String double_quote "")))]>
     (<[ticket_key := "new"]> ∅) : cookiejar)
    !! ticket_key =
  match last (filter (fun c => cookie_key c = Some ticket_key)
                [new_ticket; quoted_ticket]) with
  | Some c => filed_value <$> c !! "value"
  | None => (∅ : cookiejar) !! ticket_key
  end ∧
  (∀ c value,
     last (filter (fun c => cookie_key c = Some ticket_key)
             [new_ticket; quoted_ticket]) = Some c →
     c !! "value" = Some value →
     starts_with double_quote value && ends_with double_quote value = false →
     (<[ticket_key := String double_quote
                        (String "a" (String "b" (String double_quote "")))]>
        (<[ticket_key := "new"]> ∅) : cookiejar)
       !! ticket_key = Some value).
Proof.
  apply (set_cookies_last_wins ∅ _ [new_ticket; quoted_ticket] ticket_key).
  reflexivity.
Defined.

(** The loop raises only [KeyError], and only on a cookie that lacks
    a member. *)
Lemma set_cookies_Raise (jar : cookiejar) (l : list (gmap string string))
    (e : exn) :
  set_cookies jar l = Raise e → e = KeyError ∧ ¬ Forall complete l.
Proof.
  revert jar. induction l as [|c l IH]; intros jar H; [done|].
  rewrite set_cookies_cons in H.
  assert (∀ k, dict_get c k = Raise e → is_Some (c !! k) → False) as Hno.
  { intros k [_ Hk]%dict_get_Raise [? ?]. congruence. }
  destruct (dict_get c "name") as [name|e1] eqn:E1; cycle 1.
  { injection H as ->. split; [by apply dict_get_Raise in E1 as [-> _]|].
    intros ((? & _) & _)%Forall_cons. by eapply Hno. }
  destruct (dict_get c "value") as [value|e2] eqn:E2; cycle 1.
  { injection H as ->. split; [by apply dict_get_Raise in E2 as [-> _]|].
    intros ((_ & ? & _) & _)%Forall_cons. by eapply Hno. }
  destruct (dict_get c "domain") as [domain|e3] eqn:E3; cycle 1.
  { injection H as ->. split; [by apply dict_get_Raise in E3 as [-> _]|].
    intros ((_ & _ & ? & _) & _)%Forall_cons. by eapply Hno. }
  destruct (dict_get c "path") as [path|e4] eqn:E4; cycle 1.
  { injection H as ->. split; [by apply dict_get_Raise in E4 as [-> _]|].
    intros ((_ & _ & _ & ?) & _)%Forall_cons. by eapply Hno. }
  apply IH in H as [-> H]. split; [done|].
  intros [_ Hl]%Forall_cons. by apply H.
Qed.

(** X16. Setting the cookies returns exactly when every cookie has the
    members [name], [value], [domain] and [path]; otherwise it raises
    [KeyError], and nothing else. *)
Theorem set_cookies_returns (jar : cookiejar)
    (l : list (gmap string string)) :
  ((∃ jar', set_cookies jar l = Ok jar') ↔ Forall complete l) ∧
  (∀ e, set_cookies jar l = Raise e → e = KeyError).
Proof.
  revert jar. induction l as [|c l IH]; intros jar.
  - split; [|done]. split; [constructor|by eexists].
  - rewrite set_cookies_cons. unfold complete at 1.
    destruct (dict_get c "name") as [name|e1] eqn:E1; cycle 1.
    { apply dict_get_Raise in E1 as [-> E1]. split.
      - split; [by intros [? ?]|]. intros (([? ?] & _) & _)%Forall_cons.
        congruence.
      - by intros e [= <-]. }
    destruct (dict_get c "value") as [value|e2] eqn:E2; cycle 1.
    { apply dict_get_Raise in E2 as [-> E2]. split.
      - split; [by intros [? ?]|].
        intros ((_ & [? ?] & _) & _)%Forall_cons. congruence.
      - by intros e [= <-]. }
    destruct (dict_get c "domain") as [domain|e3] eqn:E3; cycle 1.
    { apply dict_get_Raise in E3 as [-> E3]. split.
      - split; [by intros [? ?]|].
        intros ((_ & _ & [? ?] & _) & _)%Forall_cons. congruence.
      - by intros e [= <-]. }
    destruct (dict_get c "path") as [path|e4] eqn:E4; cycle 1.
    { apply dict_get_Raise in E4 as [-> E4]. split.
      - split; [by intros [? ?]|].
        intros ((_ & _ & _ & [? ?]) & _)%Forall_cons. congruence.
      - by intros e [= <-]. }
    cbn. apply dict_get_Ok in E1, E2, E3, E4.
    destruct (IH (<[(domain, path, name):=filed_value value]> jar))
      as [IH1 IH2].
    split; [|exact IH2]. rewrite IH1, Forall_cons.
    split; [|tauto]. intros Hl. split; [|done]. unfold complete.
    rewrite E1, E2, E3, E4. by repeat split.
Qed.

Lemma set_cookies_returns_witness :
  ∃ jar', set_cookies ∅ [old_ticket; new_ticket] = Ok jar'.
Proof.
  apply (set_cookies_returns ∅). rewrite !Forall_cons.
  split; [|split; [|done]]; repeat split; vm_compute; by eexists.
Defined.

(** X17. The automatic login returns only after the address bar has
    shown the tunnel: some reading of it contained
    [webvpn.tsinghua.edu.cn], every earlier reading did not, and the
    routine slept once after each of those. *)
Theorem login_waits_for_tunnel (w : world) (fuel : nat)
    (username password : string) (m m' : machine) (lib : LibQuery) :
  webvpn_login w fuel username password m = (Some (Ok lib), m') →
  ∃ n url, (n < fuel)%nat ∧
    on_current_url w n = Ok url ∧
    py_in "webvpn.tsinghua.edu.cn" url = true ∧
    ∀ k, (k < n)%nat →
      ∃ u, on_current_url w k = Ok u ∧
           py_in "webvpn.tsinghua.edu.cn" u = false ∧
           on_sleep w k = Ok tt.
Proof.
  unfold webvpn_login, try_finally, try_except, Chrome, quit, extract, call,
    print, mbind, proc_bind, mret, proc_ret.
  intros H. repeat (case_match; simplify_eq).
  match goal with
  | Hp : poll _ _ _ _ = (Some (Ok ?u), _) |- _ =>
      destruct u; apply poll_Ok in Hp as (n & url & Hn & Hu & Hin & Hb)
  end.
  by exists n, url.
Qed.

Lemma login_waits_for_tunnel_witness :
  ∃ n url, (n < 3)%nat ∧
    on_current_url smooth_login n = Ok url ∧
    py_in "webvpn.tsinghua.edu.cn" url = true ∧
    ∀ k, (k < n)%nat →
      ∃ u, on_current_url smooth_login k = Ok u ∧
           py_in "webvpn.tsinghua.edu.cn" u = false ∧
           on_sleep smooth_login k = Ok tt.
Proof.
  apply (login_waits_for_tunnel smooth_login 3 "user" "secret" boot
           (webvpn_login smooth_login 3 "user" "secret" boot).2
           (mk_LibQuery
              (mk_Session
                 {[ ("webvpn.tsinghua.edu.cn", "/", "wengine_vpn_ticket")
                    := "0123" ]})
              {[ "User-Agent" := "Mozilla/5.0" ]})).
  vm_compute. reflexivity.
Defined.

(** X18. An exception of [driver.quit()] replaces the outcome of the
    login: once the browser has started, a routine whose [quit] raises
    raises that exception, also when the login itself went through,
    and the line [Browser closed.] is not among those it prints. *)
Theorem quit_failure_masks (w : world) (m : machine) (e : exn) :
  on_Chrome w = Ok tt →
  on_quit w = Raise e →
  (∀ fuel username password r m',
     webvpn_login w fuel username password m = (Some r, m') →
     r = Raise e ∧
     ∃ lines, stdout m' = stdout m ++ lines ∧ "
Browser closed." ∉ lines) ∧
  (∀ r m',
     webvpn_login_manual w m = (Some r, m') →
     r = Raise e ∧
     ∃ lines, stdout m' = stdout m ++ lines ∧ "
Browser closed." ∉ lines).
Proof.
  intros Hc Hq. split.
  - intros fuel username password r m'.
    unfold webvpn_login, try_finally, try_except, Chrome, quit, extract, call,
      print, mbind, proc_bind, mret, proc_ret.
    rewrite Hc, Hq.
    intros H. repeat (case_match; simplify_eq);
      repeat match goal with
             | Hp : poll _ _ _ _ = _ |- _ =>
                 pose proof (poll_machine _ _ _ _ _ _ Hp); clear Hp; subst
             end;
      (split; [done|]); cbn [stdout]; rewrite <- ?app_assoc;
      first [ by exists []; rewrite app_nil_r; split; [|apply not_elem_of_nil]
            | eexists; split; [reflexivity|];
              cbn; rewrite ?not_elem_of_cons; repeat (split; [done|]);
              apply not_elem_of_nil ].
  - intros r m'.
    unfold webvpn_login_manual, try_finally, Chrome, quit, extract, call,
      print, mbind, proc_bind, mret, proc_ret.
    rewrite Hc, Hq.
    intros H. repeat (case_match; simplify_eq);
      (split; [done|]); cbn [stdout]; rewrite <- ?app_assoc;
      first [ by exists []; rewrite app_nil_r; split; [|apply not_elem_of_nil]
            | eexists; split; [reflexivity|];
              cbn; rewrite ?not_elem_of_cons; repeat (split; [done|]);
              apply not_elem_of_nil ].
Qed.

Lemma quit_failure_masks_witness :
  (Raise WebDriverException : result LibQuery) = Raise WebDriverException ∧
  ∃ lines,
    stdout (webvpn_login stuck_browser 3 "user" "secret" boot).2
    = stdout boot ++ lines ∧ "
Browser closed." ∉ lines.
Proof.
  apply (proj1 (quit_failure_masks stuck_browser boot WebDriverException
                  eq_refl eq_refl) 3%nat "user" "secret").
  vm_compute. reflexivity.
Defined.

(** X19. What the automatic login prints when the browser starts and
    quits normally: the lines of the progress made, then, if the
    routine raises an exception of class [Exception], the error
    message, then [Browser closed.]. A [KeyboardInterrupt] passes
    without the error message. When the routine returns, both progress
    lines were printed. *)
Theorem login_prints (w : world) (fuel : nat) (username password : string)
    (m m' : machine) (r : result LibQuery) :
  on_Chrome w = Ok tt →
  on_quit w = Ok tt →
  webvpn_login w fuel username password m = (Some r, m') →
  ∃ progress,
    stdout m' =
      stdout m ++ progress ++
      match r with
      | Raise e =>
          if is_Exception e
          then ["An error occurred during login. Try logging in manually."]
          else []
      | Ok _ => []
      end ++ ["
Browser closed."] ∧
    progress `prefix_of` ["Browser opened. Logging in automatically...";
                          "Login successful."] ∧
    (∀ lib, r = Ok lib →
       progress = ["Browser opened. Logging in automatically...";
                   "Login successful."]).
Proof.
  intros Hc Hq.
  unfold webvpn_login, try_finally, try_except, Chrome, quit, extract, call,
    print, mbind, proc_bind, mret, proc_ret.
  rewrite Hc, Hq.
  intros H. repeat (case_match; simplify_eq);
    repeat match goal with
           | Hp : poll _ _ _ _ = _ |- _ =>
                 pose proof (poll_machine _ _ _ _ _ _ Hp); clear Hp; subst
           end;
    repeat match goal with
           | He : is_Exception _ = _ |- _ => rewrite He
           end;
    cbn [stdout]; rewrite <- ?app_assoc;
    first
      [ exists []; split; [reflexivity|]; split; [by eexists|done]
      | exists ["Browser opened. Logging in automatically..."];
        split; [reflexivity|]; split; [by eexists|done]
      | exists ["Browser opened. Logging in automatically...";
                "Login successful."];
        split; [reflexivity|]; split; [by eexists|done] ].
Qed.

Lemma login_prints_witness :
  ∃ progress,
    stdout (webvpn_login interrupted_login 3 "user" "secret" boot).2 =
      stdout boot ++ progress ++
      (if is_Exception KeyboardInterrupt
       then ["An error occurred during login. Try logging in manually."]
       else []) ++ ["
Browser closed."] ∧
    progress `prefix_of` ["Browser opened. Logging in automatically...";
                          "Login successful."] ∧
    (∀ lib : LibQuery, Raise KeyboardInterrupt = Ok lib →
       progress = ["Browser opened. Logging in automatically...";
                   "Login successful."]).
Proof.
  apply (login_prints interrupted_login 3 "user" "secret" boot
           (webvpn_login interrupted_login 3 "user" "secret" boot).2
           (Raise KeyboardInterrupt) eq_refl eq_refl).
  vm_compute. reflexivity.
Defined.

Lemma floor_of_builds (library : Library.t) (data : json) :
  (∃ floor, floor_of library data = Ok floor) ↔
  has_members ["id"; "name"; "enname"] data.
Proof.
  do 2 rewrite has_members_cons. rewrite has_members_one.
  unfold floor_of. split.
  - intros [floor H]. inv_Ok. eauto 10.
  - intros ([? ->] & [? ->] & [? ->]). by eexists.
Qed.

(** X20. [get_library_floors] returns exactly when the server accepts
    the request, [data.list.childArea] can be iterated, every entry is
    an object with an [isValid] member, and every entry whose [isValid]
    is 1 has the three members of a floor. The second check of the
    envelope's [status], after [get_json] has made it, changes
    nothing. *)
Theorem get_library_floors_returns (server : request → result response)
    (py_str : json → string) (self : LibQuery) (library : Library.t)
    (tr : list request) :
  (∃ floors,
     (get_library_floors server py_str self library tr).1 = Ok floors) ↔
  ∃ envelope items,
    accepted server (floors_request py_str self library) envelope ∧
    child_areas envelope = Ok items ∧
    Forall (has_members ["isValid"]) items ∧
    Forall (fun data =>
              valid data → has_members ["id"; "name"; "enname"] data) items.
Proof.
  unfold get_library_floors. rewrite fetch_then. cbn [fst]. split.
  - intros [floors H]. apply bind_Ok in H as (envelope & Hget & H).
    apply get_json_accepted in Hget.
    apply bind_Ok in H as (st & _ & H). apply bind_Ok in H as ([] & _ & H).
    rewrite child_areas_bind in H.
    apply bind_Ok in H as (items & Hi & H).
    exists envelope, items. split; [done|]. split; [done|].
    assert (∃ xs, comprehension is_valid (floor_of library) items = Ok xs)
      as Hc by eauto.
    apply comprehension_returns in Hc as [H1 H2]. split.
    + eapply Forall_impl; [exact H1|]. intros data. apply is_valid_evaluates.
    + eapply Forall_impl; [exact H2|]. intros data Hd Hv.
      apply (floor_of_builds library). by apply Hd.
  - intros (envelope & items & Ha & Hi & H1 & H2).
    pose proof Ha as (resp & _ & _ & _ & st & Hst & Heq).
    apply (get_json_accepted server self _ _ tr) in Ha. rewrite Ha. cbn.
    rewrite Hst. cbn. rewrite Heq. cbn.
    rewrite child_areas_bind, Hi. cbn.
    apply comprehension_returns. split.
    + eapply Forall_impl; [exact H1|]. intros data. apply is_valid_evaluates.
    + eapply Forall_impl; [exact H2|]. intros data Hd Hv.
      apply floor_of_builds. by apply Hd.
Qed.

(** X21. A login routine raises nothing of its own: the exception it
    raises is one that the browser driver, the sleeping thread or the
    terminal raised, or the [KeyError] of a cookie that lacks one of
    the four members read from it. *)
Theorem login_raises_what_it_met (w : world) (m : machine) (e : exn) :
  (∀ fuel username password m',
     webvpn_login w fuel username password m = (Some (Raise e), m') →
     raised_by w e ∨
     (e = KeyError ∧
      ∃ cookies, on_get_cookies w = Ok cookies ∧ ¬ Forall complete cookies)) ∧
  (∀ m',
     webvpn_login_manual w m = (Some (Raise e), m') →
     raised_by w e ∨
     (e = KeyError ∧
      ∃ cookies, on_get_cookies w = Ok cookies ∧ ¬ Forall complete cookies)).
Proof.
  split.
  - intros fuel username password m'.
    unfold webvpn_login, try_finally, try_except, Chrome, quit, extract, call,
      print, mbind, proc_bind, mret, proc_ret.
    intros H. repeat (case_match; simplify_eq);
      repeat match goal with
             | Hp : poll _ _ _ _ = (Some (Raise _), _) |- _ =>
                 apply poll_Raise in Hp as [n [Hp|Hp]]
             | Hs : set_cookies _ _ = Raise _ |- _ =>
                 apply set_cookies_Raise in Hs as [-> Hs]
             end;
      first [ by right; eauto | left; unfold raised_by; by eauto 20 ].
  - intros m'.
    unfold webvpn_login_manual, try_finally, Chrome, quit, extract, call,
      print, mbind, proc_bind, mret, proc_ret.
    intros H. repeat (case_match; simplify_eq);
      repeat match goal with
             | Hs : set_cookies _ _ = Raise _ |- _ =>
                 apply set_cookies_Raise in Hs as [-> Hs]
             end;
      first [ by right; eauto | left; unfold raised_by; by eauto 20 ].
Qed.

Lemma login_raises_what_it_met_witness :
  raised_by broken_login WebDriverException ∨
  (WebDriverException = KeyError ∧
   ∃ cookies, on_get_cookies broken_login = Ok cookies ∧
              ¬ Forall complete cookies).
Proof.
  apply (proj1 (login_raises_what_it_met broken_login boot WebDriverException)
           3%nat "user" "secret"
           (webvpn_login broken_login 3 "user" "secret" boot).2).
  vm_compute. reflexivity.
Defined.
